(** * Setu front end: voice recorder sessions and the API route proxies

    A shallow embedding of
    - [frontend/src/components/VoiceInput.tsx], the recorder with a review
      step (module [VoiceInputReview]) and the recorder with pause and
      automatic submission (module [VoiceInputEnhanced]);
    - [frontend/src/app/api/publish/[id]/route.ts] (module [PublishRoute]);
    - the voice transcription route (module [VoiceRoute]).

    React state and refs are the fields of a record that every handler
    passes on explicitly; the browser objects the handlers touch (media
    streams, MediaRecorder instances, interval timers, object URLs) live in
    the record [Browser.Env].  Every [await] splits a handler in two: the
    part before it, run by the event that calls the handler, and the
    continuation, run by the event that settles the promise. *)

From Stdlib Require Import List ZArith String Ascii Bool Arith Lia.
From Stdlib Require Import Strings.Byte.
From Stdlib Require Import DecimalString DecimalNat.
Import ListNotations.
Set Warnings "-register-all".
Local Open Scope string_scope.
Local Open Scope list_scope.

(** ** JavaScript values *)

Module JS.

(** The values [response.json()] can produce, and [undefined].  Numbers
    are limited to integers: all the code does with one is test its
    truthiness. *)
Inductive value : Type :=
| Undefined
| Null
| Bool (b : bool)
| Num (n : Z)
| Str (s : string)
| Arr (items : list value)
| Obj (fields : list (string * value)).

(** An exception is identified with its [String(error)] rendering. *)
Definition exn : Type := string.

Inductive completion (A : Type) : Type :=
| Normal (a : A)
| Throw (e : exn).
Arguments Normal {A} a.
Arguments Throw {A} e.

Definition nonempty (s : string) : bool :=
  match s with EmptyString => false | String _ _ => true end.

(** ToBoolean. *)
Definition truthy (v : value) : bool :=
  match v with
  | Undefined | Null => false
  | Bool b => b
  | Num n => negb (Z.eqb n 0)
  | Str s => nonempty s
  | Arr _ | Obj _ => true
  end.

(** [a || b] *)
Definition or (a b : value) : value := if truthy a then a else b.

Fixpoint lookup (k : string) (fields : list (string * value)) : value :=
  match fields with
  | [] => Undefined
  | (k', v) :: rest => if String.eqb k k' then v else lookup k rest
  end.

(** [v.k] for the keys the code reads ([normalized_text], [error],
    [detail]), none of which is a built-in property of strings, arrays,
    numbers or booleans. *)
Definition get (v : value) (k : string) : completion value :=
  match v with
  | Undefined =>
      Throw ("TypeError: Cannot read properties of undefined (reading '" ++ k ++ "')")%string
  | Null =>
      Throw ("TypeError: Cannot read properties of null (reading '" ++ k ++ "')")%string
  | Obj fields => Normal (lookup k fields)
  | Bool _ | Num _ | Str _ | Arr _ => Normal Undefined
  end.

(** [n.toString()] and [`${n}`] for a non-negative integer: its decimal
    digits. *)
Definition toString (n : nat) : string :=
  NilZero.string_of_uint (Nat.to_uint n).

(** The first [n] characters of [fill] repeated without end; [cur] is
    what is left of the current copy. *)
Fixpoint filler (n : nat) (cur fill : string) : string :=
  match n with
  | O => ""
  | S k =>
      match cur with
      | String c rest => String c (filler k rest fill)
      | EmptyString =>
          match fill with
          | String c rest => String c (filler k rest fill)
          | EmptyString => ""
          end
      end
  end.

(** [s.padStart(targetLength, padString)] *)
Definition padStart (targetLength : nat) (padString : string) (s : string) : string :=
  if (targetLength <=? String.length s)%nat then s
  else if nonempty padString
       then (filler (targetLength - String.length s) padString padString ++ s)%string
       else s.

(** [s.split(separator)] for a non-empty separator, in one pass over
    [s]: [cur] is the piece being read, [skip] the number of characters of
    a separator just found that are still to be passed over. *)
Fixpoint split_go (separator s : string) (skip : nat) (cur : string) : list string :=
  match s with
  | EmptyString => [cur]
  | String c rest =>
      match skip with
      | S k => split_go separator rest k cur
      | O =>
          if String.prefix separator s
          then cur :: split_go separator rest (String.length separator - 1) ""
          else split_go separator rest 0 (cur ++ String c "")%string
      end
  end.

Definition split (separator s : string) : list string := split_go separator s 0 "".


End JS.

(** ** Blobs, form data and [fetch] *)

Module Web.

Record Blob : Type := { blob_data : list byte; blob_type : string }.

Definition size (b : Blob) : nat := List.length (blob_data b).

(** [new Blob(parts, { type })]: the parts concatenated in order. *)
Definition new_Blob (parts : list Blob) (type : string) : Blob :=
  {| blob_data := List.concat (List.map blob_data parts); blob_type := type |}.

(** A FormData entry value: a string, or a file (a blob with a name). *)
Inductive FormDataEntryValue : Type :=
| FString (s : string)
| FFile (content : Blob) (filename : string).

Definition FormData : Type := list (string * FormDataEntryValue).

(** [formData.get(name)]: the first value under that name, or null. *)
Fixpoint FormData_get (name : string) (fd : FormData) : option FormDataEntryValue :=
  match fd with
  | [] => None
  | (n, v) :: rest => if String.eqb name n then Some v else FormData_get name rest
  end.

Definition FormData_append (name : string) (v : FormDataEntryValue) (fd : FormData)
  : FormData := fd ++ [(name, v)].

(** The body of a response as [response.json()] sees it: JSON text that
    parses to a value, or anything else, on which [json()] rejects with
    the given error. *)
Inductive Body : Type :=
| Json (data : JS.value)
| NotJson (e : JS.exn).

Record Response : Type := { status : Z; body : Body }.

(** [response.ok] *)
Definition ok (r : Response) : bool :=
  (200 <=? status r)%Z && (status r <=? 299)%Z.

Definition json (r : Response) : JS.completion JS.value :=
  match body r with
  | Json data => JS.Normal data
  | NotJson e => JS.Throw e
  end.

(** How the promise returned by [fetch] settles. *)
Inductive FetchResult : Type :=
| Resolved (r : Response)
| Rejected (e : JS.exn).

(** *** Route handlers: [NextResponse.json] *)

Record NextResponse : Type := { res_status : Z; res_body : JS.value }.

(** Statuses for which the Fetch standard forbids a body. *)
Definition null_body_status (st : Z) : bool :=
  (Z.eqb st 101 || Z.eqb st 103 || Z.eqb st 204 || Z.eqb st 205 || Z.eqb st 304)%bool.

(** The init check of the Fetch standard's Response ("initialize a
    response"): the status lies in 200..599 and allows a body. *)
Definition init_status_ok (st : Z) : bool :=
  (200 <=? st)%Z && (st <=? 599)%Z && negb (null_body_status st).

(** [NextResponse.json(data, { status })].  [init_error st] is the
    rendering of the RangeError or TypeError the runtime throws for a
    status it refuses. *)
Definition NextResponse_json (init_error : Z -> JS.exn) (data : JS.value) (st : Z)
  : JS.completion NextResponse :=
  if init_status_ok st
  then JS.Normal {| res_status := st; res_body := data |}
  else JS.Throw (init_error st).

(** *** Request headers *)

Definition lower (c : ascii) : ascii :=
  let n := nat_of_ascii c in
  if ((65 <=? n) && (n <=? 90))%nat then ascii_of_nat (n + 32) else c.

Fixpoint lowercase (s : string) : string :=
  match s with
  | EmptyString => EmptyString
  | String c rest => String (lower c) (lowercase rest)
  end.

(** A header list as received: names in any case, values normalised. *)
Definition Headers : Type := list (string * string).

Definition values_of (name : string) (h : Headers) : list string :=
  map snd (filter (fun nv => String.eqb (lowercase (fst nv)) (lowercase name)) h).

(** [headers.get(name)]: null when no header has that name, else the
    values joined with a comma and a space. *)
Definition Headers_get (name : string) (h : Headers) : option string :=
  match values_of name h with
  | [] => None
  | vs => Some (String.concat ", " vs)
  end.

(** [process.env.NEXT_PUBLIC_API_BASE_URL || 'http://localhost:8000'] *)
Definition BACKEND_URL (NEXT_PUBLIC_API_BASE_URL : option string) : string :=
  match NEXT_PUBLIC_API_BASE_URL with
  | Some url => if JS.nonempty url then url else "http://localhost:8000"
  | None => "http://localhost:8000"
  end.

End Web.

(** ** [POST /api/publish/{id}] *)

Module PublishRoute.
Import Web.

Record NextRequest : Type := { headers : Headers }.

(** The request [fetch] is called with. *)
Record BackendRequest : Type := {
  url : string;
  method : string;
  backend_headers : list (string * string)
}.

(** What the handler's surroundings supply: the environment variable,
    the backend behind [fetch], and the runtime's init error text.  The
    calls of [console.error] are left out. *)
Record Platform : Type := {
  NEXT_PUBLIC_API_BASE_URL : option string;
  backend : BackendRequest -> FetchResult;
  init_error : Z -> JS.exn
}.

(** The [catch] block. *)
Definition on_error (P : Platform) (error : JS.exn) : JS.completion NextResponse :=
  NextResponse_json (init_error P)
    (JS.Obj [("error", JS.Str "Failed to publish website");
             ("detail", JS.Str error)])
    500.

(** The headers object built for the backend request. *)
Definition build_headers (authHeader : option string) : list (string * string) :=
  let headers := [("Content-Type", "application/json")] in
  match authHeader with
  | Some v => if JS.nonempty v then headers ++ [("Authorization", v)] else headers
  | None => headers
  end.

(** [POST]: the response, and the requests sent to the backend. *)
Definition POST (P : Platform) (request : NextRequest) (id : string)
  : JS.completion NextResponse * list BackendRequest :=
  let authHeader := Headers_get "Authorization" (headers request) in
  let headers := build_headers authHeader in
  let req := {| url := (BACKEND_URL (NEXT_PUBLIC_API_BASE_URL P) ++ "/api/publish/" ++ id)%string;
                method := "POST";
                backend_headers := headers |} in
  match backend P req with
  | Rejected e => (on_error P e, [req])
  | Resolved backendResponse =>
      match json backendResponse with
      | JS.Throw e => (on_error P e, [req])
      | JS.Normal data =>
          match NextResponse_json (init_error P) data (status backendResponse) with
          | JS.Throw e => (on_error P e, [req])
          | JS.Normal res => (JS.Normal res, [req])
          end
      end
  end.

End PublishRoute.

(** ** The voice transcription route *)

Module VoiceRoute.
Import Web.

(** [request.formData()] resolves with the parsed form, or rejects. *)
Record NextRequest : Type := { formData : JS.completion FormData }.

Record BackendRequest : Type := {
  url : string;
  method : string;
  backend_body : FormData
}.

Record Platform : Type := {
  NEXT_PUBLIC_API_BASE_URL : option string;
  backend : BackendRequest -> FetchResult;
  init_error : Z -> JS.exn
}.

(** The [catch] block. *)
Definition on_error (P : Platform) : JS.completion NextResponse :=
  NextResponse_json (init_error P)
    (JS.Obj [("error", JS.Str "Failed to process voice recording")]) 500.

(** [!audioFile]: null and the empty string are falsy, a File is not. *)
Definition missing (audioFile : option FormDataEntryValue) : bool :=
  match audioFile with
  | None => true
  | Some (FString s) => negb (JS.nonempty s)
  | Some (FFile _ _) => false
  end.

(** [formData.get('language') as string || 'auto'] *)
Definition language_or_auto (v : option FormDataEntryValue) : FormDataEntryValue :=
  match v with
  | None => FString "auto"
  | Some (FString s) => if JS.nonempty s then FString s else FString "auto"
  | Some (FFile c n) => FFile c n
  end.

Definition POST (P : Platform) (request : NextRequest)
  : JS.completion NextResponse * list BackendRequest :=
  match formData request with
  | JS.Throw _ => (on_error P, [])
  | JS.Normal formData =>
      let audioFile := FormData_get "audio" formData in
      let language := language_or_auto (FormData_get "language" formData) in
      if missing audioFile then
        match NextResponse_json (init_error P)
                (JS.Obj [("error", JS.Str "No audio file provided")]) 400 with
        | JS.Throw _ => (on_error P, [])
        | JS.Normal res => (JS.Normal res, [])
        end
      else
        let audio := match audioFile with Some v => v | None => FString "" end in
        let backendFormData :=
          FormData_append "language" language (FormData_append "audio" audio []) in
        let req := {| url := (BACKEND_URL (NEXT_PUBLIC_API_BASE_URL P)
                               ++ "/api/voice/transcribe")%string;
                      method := "POST";
                      backend_body := backendFormData |} in
        match backend P req with
        | Rejected _ => (on_error P, [req])
        | Resolved response =>
            match json response with
            | JS.Throw _ => (on_error P, [req])
            | JS.Normal data =>
                if ok response then
                  match NextResponse_json (init_error P) data 200 with
                  | JS.Throw _ => (on_error P, [req])
                  | JS.Normal res => (JS.Normal res, [req])
                  end
                else
                  match JS.get data "detail" with
                  | JS.Throw _ => (on_error P, [req])
                  | JS.Normal detail =>
                      match NextResponse_json (init_error P)
                              (JS.Obj [("error",
                                        JS.or detail (JS.Str "Transcription failed"))])
                              (status response) with
                      | JS.Throw _ => (on_error P, [req])
                      | JS.Normal res => (JS.Normal res, [req])
                      end
                  end
            end
        end
  end.

End VoiceRoute.

(** ** The browser objects behind the recorder *)

Module Browser.

(** [MediaRecorder.state] *)
Inductive RecorderState : Type := mr_inactive | mr_recording | mr_paused.

(** A MediaRecorder instance together with what the handlers installed on
    it close over: the [stream] and the [mimeType] of the call of
    [startRecording] that created it.  [mr_stopping] holds between the
    moment the recorder is made inactive ([stop()], or an error) and the
    dispatch of its [stop] event. *)
Record MediaRecorder : Type := {
  mr_stream : nat;
  mr_mimeType : string;
  mr_options : option string;
  mr_state : RecorderState;
  mr_stopping : bool
}.

(** What [navigator] and [MediaRecorder] offer in this browser. *)
Record Navigator : Type := {
  mediaDevices : bool;
  isTypeSupported : string -> bool
}.

(** How the promise of [getUserMedia] settles. *)
Inductive UserMediaResult : Type :=
| Granted
| NotAllowedError
| OtherError.

(** Streams, timers and object URLs are numbered from 0 in the order of
    their creation.  The numbers are names only: where the source tests
    [if (timerRef.current)] or [if (audioUrl)], the model tests whether
    the reference holds a timer or a URL at all (in a browser a timer id
    is never 0 and an object URL is never empty). *)
Record Env : Type := {
  recorders : list MediaRecorder;   (* every recorder created, by number *)
  streams : nat;                    (* streams handed out so far *)
  liveStreams : list nat;           (* streams whose tracks are not stopped *)
  timers : nat;                     (* interval timers created so far *)
  activeTimers : list nat;          (* interval timers not cleared *)
  urls : nat;                       (* object URLs created so far *)
  liveUrls : list nat;              (* object URLs not revoked *)
  pendingUserMedia : nat            (* getUserMedia promises not settled *)
}.

Definition empty : Env :=
  {| recorders := []; streams := 0; liveStreams := [];
     timers := 0; activeTimers := [];
     urls := 0; liveUrls := []; pendingUserMedia := 0 |}.

Definition without (x : nat) (l : list nat) : list nat :=
  filter (fun y => negb (Nat.eqb y x)) l.

Fixpoint update {A : Type} (i : nat) (f : A -> A) (l : list A) : list A :=
  match l, i with
  | [], _ => []
  | x :: rest, O => f x :: rest
  | x :: rest, S j => x :: update j f rest
  end.

Definition with_recorders (f : list MediaRecorder -> list MediaRecorder) (e : Env) : Env :=
  {| recorders := f (recorders e); streams := streams e; liveStreams := liveStreams e;
     timers := timers e; activeTimers := activeTimers e;
     urls := urls e; liveUrls := liveUrls e; pendingUserMedia := pendingUserMedia e |}.

Definition with_pending (n : nat) (e : Env) : Env :=
  {| recorders := recorders e; streams := streams e; liveStreams := liveStreams e;
     timers := timers e; activeTimers := activeTimers e;
     urls := urls e; liveUrls := liveUrls e; pendingUserMedia := n |}.

(** [navigator.mediaDevices.getUserMedia({ audio: true })] is called. *)
Definition getUserMedia (e : Env) : Env := with_pending (S (pendingUserMedia e)) e.

(** The promise settles. *)
Definition settleUserMedia (e : Env) : Env := with_pending (pred (pendingUserMedia e)) e.

(** The promise resolves with a fresh stream, its tracks live. *)
Definition openStream (e : Env) : nat * Env :=
  (streams e,
   {| recorders := recorders e; streams := S (streams e);
      liveStreams := liveStreams e ++ [streams e];
      timers := timers e; activeTimers := activeTimers e;
      urls := urls e; liveUrls := liveUrls e; pendingUserMedia := pendingUserMedia e |}).

(** [stream.getTracks().forEach(track => track.stop())] *)
Definition stopTracks (stream : nat) (e : Env) : Env :=
  {| recorders := recorders e; streams := streams e;
     liveStreams := without stream (liveStreams e);
     timers := timers e; activeTimers := activeTimers e;
     urls := urls e; liveUrls := liveUrls e; pendingUserMedia := pendingUserMedia e |}.

(** [setInterval(...)] *)
Definition setInterval (e : Env) : nat * Env :=
  (timers e,
   {| recorders := recorders e; streams := streams e; liveStreams := liveStreams e;
      timers := S (timers e); activeTimers := activeTimers e ++ [timers e];
      urls := urls e; liveUrls := liveUrls e; pendingUserMedia := pendingUserMedia e |}).

(** [clearInterval(id)] *)
Definition clearInterval (id : nat) (e : Env) : Env :=
  {| recorders := recorders e; streams := streams e; liveStreams := liveStreams e;
     timers := timers e; activeTimers := without id (activeTimers e);
     urls := urls e; liveUrls := liveUrls e; pendingUserMedia := pendingUserMedia e |}.

(** [URL.createObjectURL(blob)] *)
Definition createObjectURL (e : Env) : nat * Env :=
  (urls e,
   {| recorders := recorders e; streams := streams e; liveStreams := liveStreams e;
      timers := timers e; activeTimers := activeTimers e;
      urls := S (urls e); liveUrls := liveUrls e ++ [urls e];
      pendingUserMedia := pendingUserMedia e |}).

(** [URL.revokeObjectURL(url)] *)
Definition revokeObjectURL (url : nat) (e : Env) : Env :=
  {| recorders := recorders e; streams := streams e; liveStreams := liveStreams e;
     timers := timers e; activeTimers := activeTimers e;
     urls := urls e; liveUrls := without url (liveUrls e);
     pendingUserMedia := pendingUserMedia e |}.

(** [new MediaRecorder(stream, options)]; [mimeType] is the variable the
    handlers of this recorder close over. *)
Definition new_MediaRecorder (stream : nat) (options : option string) (mimeType : string)
    (e : Env) : nat * Env :=
  (List.length (recorders e),
   with_recorders (fun rs => rs ++ [{| mr_stream := stream; mr_mimeType := mimeType;
                                       mr_options := options; mr_state := mr_inactive;
                                       mr_stopping := false |}]) e).

Definition set_recorder (st : RecorderState) (stopping : bool) (r : MediaRecorder)
  : MediaRecorder :=
  {| mr_stream := mr_stream r; mr_mimeType := mr_mimeType r; mr_options := mr_options r;
     mr_state := st; mr_stopping := stopping |}.

Definition recorder (rid : nat) (e : Env) : option MediaRecorder :=
  nth_error (recorders e) rid.

(** [mediaRecorder.start(100)] on a recorder just created. *)
Definition start (rid : nat) (e : Env) : Env :=
  with_recorders (update rid (fun r => set_recorder mr_recording (mr_stopping r) r)) e.

(** [mediaRecorder.stop()] on a recorder that is not inactive: it becomes
    inactive at once; its [dataavailable] and [stop] events come later. *)
Definition stop (rid : nat) (e : Env) : Env :=
  with_recorders (update rid (set_recorder mr_inactive true)) e.

(** [mediaRecorder.pause()], [mediaRecorder.resume()] *)
Definition pause (rid : nat) (e : Env) : Env :=
  with_recorders (update rid (fun r => set_recorder mr_paused (mr_stopping r) r)) e.

Definition resume (rid : nat) (e : Env) : Env :=
  with_recorders (update rid (fun r => set_recorder mr_recording (mr_stopping r) r)) e.

(** The [stop] event of a recorder has been dispatched. *)
Definition stopped (rid : nat) (e : Env) : Env :=
  with_recorders (update rid (fun r => set_recorder (mr_state r) false r)) e.

(** The recorder cannot go on: the browser makes it inactive, fires
    [error], and then [dataavailable] and [stop] as after [stop()]
    (MediaStream Recording, the start() algorithm). *)
Definition failed (rid : nat) (e : Env) : Env := stop rid e.

Definition is_inactive (s : RecorderState) : bool :=
  match s with mr_inactive => true | _ => false end.

Definition is_recording (s : RecorderState) : bool :=
  match s with mr_recording => true | _ => false end.

Definition is_paused (s : RecorderState) : bool :=
  match s with mr_paused => true | _ => false end.

(** [ref.current && p(ref.current.state)] *)
Definition ref_state_is (p : RecorderState -> bool) (ref : option nat) (e : Env) : bool :=
  match ref with
  | None => false
  | Some rid =>
      match recorder rid e with
      | Some r => p (mr_state r)
      | None => false
      end
  end.

(** [mediaRecorderRef.current && mediaRecorderRef.current.state !== 'inactive'] *)
Definition not_inactive (ref : option nat) (e : Env) : bool :=
  ref_state_is (fun s => negb (is_inactive s)) ref e.

(** The preference list of [startRecording]. *)
Definition mimeTypes : list string :=
  ["audio/webm;codecs=opus"; "audio/webm"; "audio/mp4"; "audio/ogg;codecs=opus"].

(** The loop of [startRecording]: [mimeType] starts as the empty string
    and takes the first type the probe accepts. *)
Fixpoint selectMimeType (probe : string -> bool) (types : list string) : string :=
  match types with
  | [] => ""
  | type :: rest => if probe type then type else selectMimeType probe rest
  end.

(** [mimeType ? { mimeType } : undefined] *)
Definition recorder_options (mimeType : string) : option string :=
  if JS.nonempty mimeType then Some mimeType else None.

(** [mimeType || 'audio/webm'] *)
Definition blob_type_for (mimeType : string) : string :=
  if JS.nonempty mimeType then mimeType else "audio/webm".

Definition option_nat_eqb (a b : option nat) : bool :=
  match a, b with
  | None, None => true
  | Some x, Some y => Nat.eqb x y
  | _, _ => false
  end.

End Browser.

(** ** [VoiceInput]: the recorder with a review step *)

Module VoiceInputReview.
Import Web Browser.

Inductive Language : Type := en | hi.

(** The entries of [content] the handlers use. *)
Record Content : Type := {
  permissionDenied : string;
  notSupported : string;
  recordingError : string
}.

Definition content (language : Language) : Content :=
  match language with
  | en => {| permissionDenied :=
               "Microphone access denied. Please enable it in your browser settings.";
             notSupported := "Voice recording is not supported in this browser.";
             recordingError := "Recording failed. Please try again." |}
  | hi => {| permissionDenied :=
               "Microphone access denied है। Browser settings में enable करें।";
             notSupported := "इस browser में voice recording support नहीं है।";
             recordingError := "Recording fail हुई। फिर से try करें।" |}
  end.

Definition tag (language : Language) : string :=
  match language with en => "en" | hi => "hi" end.

Inductive RecordingState : Type := idle | recording | review | processing.

(** The props; [onTranscription] is represented by the log
    [transcriptions] of the arguments it was called with. *)
Record Props : Type := { language : Language; disabled : bool }.

(** The element made by [new Audio(audioUrl)]. *)
Record Audio : Type := { src : nat; playing : bool }.

(** A call of [fetch('/api/voice', ...)] not yet settled, with the
    [audioUrl] that the continuation's [resetRecording] closes over. *)
Record Request : Type := { form : FormData; closure_audioUrl : option nat }.

Record World : Type := mkWorld {
  (* useState *)
  state : RecordingState;
  error : JS.value;
  recordingTime : nat;
  audioUrl : option nat;
  isPlaying : bool;
  (* useRef *)
  mediaRecorderRef : option nat;
  audioChunksRef : list Blob;
  timerRef : option nat;
  audioRef : option Audio;
  audioBlobRef : option Blob;
  (* surroundings *)
  env : Env;
  inflight : list Request;
  transcriptions : list JS.value;
  mounted : bool
}.

(** The component as mounted. *)
Definition init : World :=
  mkWorld idle (JS.Str "") 0 None false None [] None None None Browser.empty [] [] true.

Definition setState (x : RecordingState) (w : World) : World :=
  mkWorld x (error w) (recordingTime w) (audioUrl w) (isPlaying w) (mediaRecorderRef w)
    (audioChunksRef w) (timerRef w) (audioRef w) (audioBlobRef w) (env w) (inflight w)
    (transcriptions w) (mounted w).

Definition setError (x : JS.value) (w : World) : World :=
  mkWorld (state w) x (recordingTime w) (audioUrl w) (isPlaying w) (mediaRecorderRef w)
    (audioChunksRef w) (timerRef w) (audioRef w) (audioBlobRef w) (env w) (inflight w)
    (transcriptions w) (mounted w).

Definition setRecordingTime (x : nat) (w : World) : World :=
  mkWorld (state w) (error w) x (audioUrl w) (isPlaying w) (mediaRecorderRef w)
    (audioChunksRef w) (timerRef w) (audioRef w) (audioBlobRef w) (env w) (inflight w)
    (transcriptions w) (mounted w).

Definition setAudioUrl (x : option nat) (w : World) : World :=
  mkWorld (state w) (error w) (recordingTime w) x (isPlaying w) (mediaRecorderRef w)
    (audioChunksRef w) (timerRef w) (audioRef w) (audioBlobRef w) (env w) (inflight w)
    (transcriptions w) (mounted w).

Definition setIsPlaying (x : bool) (w : World) : World :=
  mkWorld (state w) (error w) (recordingTime w) (audioUrl w) x (mediaRecorderRef w)
    (audioChunksRef w) (timerRef w) (audioRef w) (audioBlobRef w) (env w) (inflight w)
    (transcriptions w) (mounted w).

Definition set_mediaRecorderRef (x : option nat) (w : World) : World :=
  mkWorld (state w) (error w) (recordingTime w) (audioUrl w) (isPlaying w) x
    (audioChunksRef w) (timerRef w) (audioRef w) (audioBlobRef w) (env w) (inflight w)
    (transcriptions w) (mounted w).

Definition set_audioChunksRef (x : list Blob) (w : World) : World :=
  mkWorld (state w) (error w) (recordingTime w) (audioUrl w) (isPlaying w) (mediaRecorderRef w)
    x (timerRef w) (audioRef w) (audioBlobRef w) (env w) (inflight w)
    (transcriptions w) (mounted w).

Definition set_timerRef (x : option nat) (w : World) : World :=
  mkWorld (state w) (error w) (recordingTime w) (audioUrl w) (isPlaying w) (mediaRecorderRef w)
    (audioChunksRef w) x (audioRef w) (audioBlobRef w) (env w) (inflight w)
    (transcriptions w) (mounted w).

Definition set_audioRef (x : option Audio) (w : World) : World :=
  mkWorld (state w) (error w) (recordingTime w) (audioUrl w) (isPlaying w) (mediaRecorderRef w)
    (audioChunksRef w) (timerRef w) x (audioBlobRef w) (env w) (inflight w)
    (transcriptions w) (mounted w).

Definition set_audioBlobRef (x : option Blob) (w : World) : World :=
  mkWorld (state w) (error w) (recordingTime w) (audioUrl w) (isPlaying w) (mediaRecorderRef w)
    (audioChunksRef w) (timerRef w) (audioRef w) x (env w) (inflight w)
    (transcriptions w) (mounted w).

Definition set_env (x : Env) (w : World) : World :=
  mkWorld (state w) (error w) (recordingTime w) (audioUrl w) (isPlaying w) (mediaRecorderRef w)
    (audioChunksRef w) (timerRef w) (audioRef w) (audioBlobRef w) x (inflight w)
    (transcriptions w) (mounted w).

Definition set_inflight (x : list Request) (w : World) : World :=
  mkWorld (state w) (error w) (recordingTime w) (audioUrl w) (isPlaying w) (mediaRecorderRef w)
    (audioChunksRef w) (timerRef w) (audioRef w) (audioBlobRef w) (env w) x
    (transcriptions w) (mounted w).

(** [onTranscription(text)] *)
Definition onTranscription (text : JS.value) (w : World) : World :=
  mkWorld (state w) (error w) (recordingTime w) (audioUrl w) (isPlaying w) (mediaRecorderRef w)
    (audioChunksRef w) (timerRef w) (audioRef w) (audioBlobRef w) (env w) (inflight w)
    (transcriptions w ++ [text]) (mounted w).

Definition set_mounted (x : bool) (w : World) : World :=
  mkWorld (state w) (error w) (recordingTime w) (audioUrl w) (isPlaying w) (mediaRecorderRef w)
    (audioChunksRef w) (timerRef w) (audioRef w) (audioBlobRef w) (env w) (inflight w)
    (transcriptions w) x.

(** The cleanup function of the effect; [audioUrl] is the value of the
    render that installed it. *)
Definition cleanup (audioUrl : option nat) (w : World) : World :=
  let w := match timerRef w with
           | Some timer => set_env (clearInterval timer (env w)) w
           | None => w
           end in
  let w := match audioUrl with
           | Some url => set_env (revokeObjectURL url (env w)) w
           | None => w
           end in
  if not_inactive (mediaRecorderRef w) (env w)
  then match mediaRecorderRef w with
       | Some rid => set_env (stop rid (env w)) w
       | None => w
       end
  else w.

(** [startRecording] up to [await getUserMedia]. *)
Definition startRecording (p : Props) (nav : Navigator) (w : World) : World :=
  let w := setError (JS.Str "") w in
  if negb (mediaDevices nav)
  then setError (JS.Str (notSupported (content (language p)))) w
  else set_env (getUserMedia (env w)) w.

(** [startRecording] after [getUserMedia] resolved. *)
Definition startRecording_resolved (p : Props) (nav : Navigator) (w : World) : World :=
  let '(stream, e) := openStream (settleUserMedia (env w)) in
  let mimeType := selectMimeType (isTypeSupported nav) mimeTypes in
  let '(mediaRecorder, e) :=
    new_MediaRecorder stream (recorder_options mimeType) mimeType e in
  let w := set_mediaRecorderRef (Some mediaRecorder) w in
  let w := set_audioChunksRef [] w in
  let e := start mediaRecorder e in
  let w := setState recording w in
  let w := setRecordingTime 0 w in
  let '(timer, e) := setInterval e in
  set_timerRef (Some timer) (set_env e w).

(** [startRecording] after [getUserMedia] rejected: the [catch] block. *)
Definition startRecording_rejected (p : Props) (notAllowed : bool) (w : World) : World :=
  let w := set_env (settleUserMedia (env w)) w in
  if notAllowed
  then setError (JS.Str (permissionDenied (content (language p)))) w
  else setError (JS.Str (recordingError (content (language p)))) w.

(** [mediaRecorder.ondataavailable] *)
Definition ondataavailable (data : Blob) (w : World) : World :=
  if (0 <? size data)%nat then set_audioChunksRef (audioChunksRef w ++ [data]) w else w.

(** [mediaRecorder.onstop] of the recorder [r]. *)
Definition onstop (r : MediaRecorder) (w : World) : World :=
  let w := set_env (stopTracks (mr_stream r) (env w)) w in
  let audioBlob := new_Blob (audioChunksRef w) (blob_type_for (mr_mimeType r)) in
  let w := set_audioBlobRef (Some audioBlob) w in
  let '(url, e) := createObjectURL (env w) in
  let w := set_env e w in
  let w := setAudioUrl (Some url) w in
  setState review w.

(** [mediaRecorder.onerror] *)
Definition onerror (p : Props) (w : World) : World :=
  let w := setError (JS.Str (recordingError (content (language p)))) w in
  setState idle w.

Definition stopRecording (w : World) : World :=
  let w := match timerRef w with
           | Some timer => set_timerRef None (set_env (clearInterval timer (env w)) w)
           | None => w
           end in
  if not_inactive (mediaRecorderRef w) (env w)
  then match mediaRecorderRef w with
       | Some rid => set_env (stop rid (env w)) w
       | None => w
       end
  else w.

Definition playAudio (w : World) : World :=
  match audioUrl w with
  | None => w
  | Some url =>
      let a := match audioRef w with
               | None => {| src := url; playing := false |}
               | Some a => a
               end in
      if isPlaying w
      then setIsPlaying false (set_audioRef (Some {| src := src a; playing := false |}) w)
      else setIsPlaying true (set_audioRef (Some {| src := src a; playing := true |}) w)
  end.

(** [audioRef.current.onended] *)
Definition onended (w : World) : World :=
  let w := match audioRef w with
           | Some a => set_audioRef (Some {| src := src a; playing := false |}) w
           | None => w
           end in
  setIsPlaying false w.

(** [resetRecording]; [audioUrl] is the value its closure holds. *)
Definition resetRecording (audioUrl : option nat) (w : World) : World :=
  let w := match audioUrl with
           | Some url => set_env (revokeObjectURL url (env w)) w
           | None => w
           end in
  let w := match audioRef w with
           | Some _ => set_audioRef None w
           | None => w
           end in
  let w := setAudioUrl None w in
  let w := setIsPlaying false w in
  let w := setRecordingTime 0 w in
  let w := set_audioBlobRef None w in
  setState idle w.

(** [submitRecording] up to [await fetch]. *)
Definition submitRecording (p : Props) (w : World) : World :=
  match audioBlobRef w with
  | None => w
  | Some blob =>
      let w := setState processing w in
      let w := setError (JS.Str "") w in
      let formData := FormData_append "audio" (FFile blob "recording.webm") [] in
      let formData := FormData_append "language" (FString (tag (language p))) formData in
      set_inflight (inflight w ++ [{| form := formData; closure_audioUrl := audioUrl w |}]) w
  end.

(** The [catch] block of [submitRecording]. *)
Definition submit_failed (w : World) : World :=
  setState review (setError (JS.Str "Failed to process recording") w).

(** The [else] branch of [submitRecording]. *)
Definition submit_refused (data : JS.value) (w : World) : World :=
  match JS.get data "error" with
  | JS.Throw _ => submit_failed w
  | JS.Normal e => setState review (setError (JS.or e (JS.Str "Transcription failed")) w)
  end.

(** [submitRecording] from the moment [fetch] settles. *)
Definition submitRecording_settled (req : Request) (r : FetchResult) (w : World) : World :=
  match r with
  | Rejected _ => submit_failed w
  | Resolved response =>
      match json response with
      | JS.Throw _ => submit_failed w
      | JS.Normal data =>
          if ok response then
            match JS.get data "normalized_text" with
            | JS.Throw _ => submit_failed w
            | JS.Normal normalized_text =>
                if JS.truthy normalized_text
                then resetRecording (closure_audioUrl req) (onTranscription normalized_text w)
                else submit_refused data w
            end
          else submit_refused data w
      end
  end.

(** [formatTime], for the values [recordingTime] takes. *)
Definition formatTime (seconds : nat) : string :=
  let mins := seconds / 60 in
  let secs := seconds mod 60 in
  (JS.toString mins ++ ":" ++ JS.padStart 2 "0" (JS.toString secs))%string.

(** *** The session as an event-driven machine *)

Inductive Event : Type :=
| ClickRecord                                  (* the record button *)
| UserMediaSettled (r : UserMediaResult)       (* getUserMedia settles *)
| ClickStop
| ClickPlay
| ClickRecordAgain
| ClickUseThis
| DataAvailable (rid : nat) (data : Blob)      (* recorder events *)
| RecorderStop (rid : nat)
| RecorderError (rid : nat)
| Tick (timer : nat)                           (* an interval timer fires *)
| AudioEnded
| FetchSettled (i : nat) (r : FetchResult)     (* the i-th pending fetch settles *)
| Unmount.

Fixpoint drop_nth {A : Type} (i : nat) (l : list A) : list A :=
  match l, i with
  | [], _ => []
  | _ :: rest, O => rest
  | x :: rest, S j => x :: drop_nth j rest
  end.

Definition is_idle (s : RecordingState) : bool :=
  match s with idle => true | _ => false end.

Definition is_recording_state (s : RecordingState) : bool :=
  match s with recording => true | _ => false end.

Definition is_review (s : RecordingState) : bool :=
  match s with review => true | _ => false end.

(** Which events can occur: a button can be clicked when it is rendered
    (and not disabled), a promise settles when it is pending, a recorder
    fires the events of its state, a timer fires while it is active. *)
Definition enabled (p : Props) (w : World) (ev : Event) : bool :=
  match ev with
  | ClickRecord => mounted w && is_idle (state w) && negb (disabled p)
  | UserMediaSettled _ => (0 <? pendingUserMedia (env w))%nat
  | ClickStop => mounted w && is_recording_state (state w)
  | ClickPlay | ClickRecordAgain | ClickUseThis => mounted w && is_review (state w)
  | DataAvailable rid _ =>
      match recorder rid (env w) with
      | Some r => is_recording (mr_state r) || mr_stopping r
      | None => false
      end
  | RecorderStop rid =>
      match recorder rid (env w) with
      | Some r => mr_stopping r
      | None => false
      end
  | RecorderError rid =>
      match recorder rid (env w) with
      | Some r => negb (is_inactive (mr_state r))
      | None => false
      end
  | Tick timer => existsb (Nat.eqb timer) (activeTimers (env w))
  | AudioEnded =>
      match audioRef w with
      | Some a => playing a
      | None => false
      end
  | FetchSettled i _ => (i <? List.length (inflight w))%nat
  | Unmount => mounted w
  end.

(** The handler an event runs. *)
Definition handle (p : Props) (nav : Navigator) (ev : Event) (w : World) : World :=
  match ev with
  | ClickRecord => startRecording p nav w
  | UserMediaSettled Granted => startRecording_resolved p nav w
  | UserMediaSettled NotAllowedError => startRecording_rejected p true w
  | UserMediaSettled OtherError => startRecording_rejected p false w
  | ClickStop => stopRecording w
  | ClickPlay => playAudio w
  | ClickRecordAgain => resetRecording (audioUrl w) w
  | ClickUseThis => submitRecording p w
  | DataAvailable rid data =>
      match recorder rid (env w) with
      | Some _ => ondataavailable data w
      | None => w
      end
  | RecorderStop rid =>
      match recorder rid (env w) with
      | Some r => onstop r (set_env (stopped rid (env w)) w)
      | None => w
      end
  | RecorderError rid =>
      match recorder rid (env w) with
      | Some _ => onerror p (set_env (failed rid (env w)) w)
      | None => w
      end
  | Tick _ => setRecordingTime (recordingTime w + 1) w
  | AudioEnded => onended w
  | FetchSettled i r =>
      match nth_error (inflight w) i with
      | Some req => submitRecording_settled req r (set_inflight (drop_nth i (inflight w)) w)
      | None => w
      end
  | Unmount => cleanup (audioUrl w) (set_mounted false w)
  end.

(** One event: its handler, then, when the render that follows sees
    another [audioUrl], the cleanup of the effect (dependencies
    [[audioUrl]]) installed by the render before. *)
Definition step (p : Props) (nav : Navigator) (ev : Event) (w : World) : World :=
  let w' := handle p nav ev w in
  if mounted w' && negb (option_nat_eqb (audioUrl w) (audioUrl w'))
  then cleanup (audioUrl w) w'
  else w'.

(** A run: every event enabled where it occurs. *)
Fixpoint run (p : Props) (nav : Navigator) (evs : list Event) (w : World) : option World :=
  match evs with
  | [] => Some w
  | ev :: rest => if enabled p w ev then run p nav rest (step p nav ev w) else None
  end.

End VoiceInputReview.

(** ** [VoiceInput]: the recorder with pause and automatic submission *)

Module VoiceInputEnhanced.
Import Web Browser.

Inductive Language : Type := en | hi.

Record Content : Type := {
  permissionDenied : string;
  notSupported : string;
  recordingError : string
}.

Definition content (language : Language) : Content :=
  match language with
  | en => {| permissionDenied :=
               "Microphone access denied. Please enable it in your browser settings.";
             notSupported := "Voice recording is not supported in this browser.";
             recordingError := "Recording failed. Please try again." |}
  | hi => {| permissionDenied :=
               "Microphone access denied है। Browser settings में enable करें।";
             notSupported := "इस browser में voice recording support नहीं है।";
             recordingError := "Recording fail हुई। फिर से try करें।" |}
  end.

Definition tag (language : Language) : string :=
  match language with en => "en" | hi => "hi" end.

Inductive RecordingState : Type := idle | recording | paused | processing.

(** The props; [onTranscription] is represented by the log
    [transcriptions]; [autoGenerate] is never read. *)
Record Props : Type := { language : Language; disabled : bool }.

(** A call of [fetch('/api/voice', ...)] not yet settled. *)
Record Request : Type := { form : FormData }.

Record World : Type := mkWorld {
  (* useState *)
  state : RecordingState;
  error : JS.value;
  recordingTime : nat;
  (* useRef *)
  mediaRecorderRef : option nat;
  audioChunksRef : list Blob;
  timerRef : option nat;
  audioBlobRef : option Blob;
  (* surroundings *)
  env : Env;
  inflight : list Request;
  transcriptions : list JS.value;
  mounted : bool
}.

Definition init : World :=
  mkWorld idle (JS.Str "") 0 None [] None None Browser.empty [] [] true.

Definition setState (x : RecordingState) (w : World) : World :=
  mkWorld x (error w) (recordingTime w) (mediaRecorderRef w) (audioChunksRef w)
    (timerRef w) (audioBlobRef w) (env w) (inflight w) (transcriptions w) (mounted w).

Definition setError (x : JS.value) (w : World) : World :=
  mkWorld (state w) x (recordingTime w) (mediaRecorderRef w) (audioChunksRef w)
    (timerRef w) (audioBlobRef w) (env w) (inflight w) (transcriptions w) (mounted w).

Definition setRecordingTime (x : nat) (w : World) : World :=
  mkWorld (state w) (error w) x (mediaRecorderRef w) (audioChunksRef w)
    (timerRef w) (audioBlobRef w) (env w) (inflight w) (transcriptions w) (mounted w).

Definition set_mediaRecorderRef (x : option nat) (w : World) : World :=
  mkWorld (state w) (error w) (recordingTime w) x (audioChunksRef w)
    (timerRef w) (audioBlobRef w) (env w) (inflight w) (transcriptions w) (mounted w).

Definition set_audioChunksRef (x : list Blob) (w : World) : World :=
  mkWorld (state w) (error w) (recordingTime w) (mediaRecorderRef w) x
    (timerRef w) (audioBlobRef w) (env w) (inflight w) (transcriptions w) (mounted w).

Definition set_timerRef (x : option nat) (w : World) : World :=
  mkWorld (state w) (error w) (recordingTime w) (mediaRecorderRef w) (audioChunksRef w)
    x (audioBlobRef w) (env w) (inflight w) (transcriptions w) (mounted w).

Definition set_audioBlobRef (x : option Blob) (w : World) : World :=
  mkWorld (state w) (error w) (recordingTime w) (mediaRecorderRef w) (audioChunksRef w)
    (timerRef w) x (env w) (inflight w) (transcriptions w) (mounted w).

Definition set_env (x : Env) (w : World) : World :=
  mkWorld (state w) (error w) (recordingTime w) (mediaRecorderRef w) (audioChunksRef w)
    (timerRef w) (audioBlobRef w) x (inflight w) (transcriptions w) (mounted w).

Definition set_inflight (x : list Request) (w : World) : World :=
  mkWorld (state w) (error w) (recordingTime w) (mediaRecorderRef w) (audioChunksRef w)
    (timerRef w) (audioBlobRef w) (env w) x (transcriptions w) (mounted w).

(** [onTranscription(text)] *)
Definition onTranscription (text : JS.value) (w : World) : World :=
  mkWorld (state w) (error w) (recordingTime w) (mediaRecorderRef w) (audioChunksRef w)
    (timerRef w) (audioBlobRef w) (env w) (inflight w) (transcriptions w ++ [text])
    (mounted w).

Definition set_mounted (x : bool) (w : World) : World :=
  mkWorld (state w) (error w) (recordingTime w) (mediaRecorderRef w) (audioChunksRef w)
    (timerRef w) (audioBlobRef w) (env w) (inflight w) (transcriptions w) x.

(** The cleanup function of the effect (no dependencies: it runs on
    unmount only). *)
Definition cleanup (w : World) : World :=
  let w := match timerRef w with
           | Some timer => set_env (clearInterval timer (env w)) w
           | None => w
           end in
  if not_inactive (mediaRecorderRef w) (env w)
  then match mediaRecorderRef w with
       | Some rid => set_env (stop rid (env w)) w
       | None => w
       end
  else w.

(** [startRecording] up to [await getUserMedia]. *)
Definition startRecording (p : Props) (nav : Navigator) (w : World) : World :=
  let w := setError (JS.Str "") w in
  if negb (mediaDevices nav)
  then setError (JS.Str (notSupported (content (language p)))) w
  else set_env (getUserMedia (env w)) w.

(** [submitRecording] up to [await fetch]. *)
Definition submitRecording (p : Props) (w : World) : World :=
  match audioBlobRef w with
  | None => w
  | Some blob =>
      let w := setState processing w in
      let w := setError (JS.Str "") w in
      let formData := FormData_append "audio" (FFile blob "recording.webm") [] in
      let formData := FormData_append "language" (FString (tag (language p))) formData in
      set_inflight (inflight w ++ [{| form := formData |}]) w
  end.

(** [startRecording] after [getUserMedia] resolved. *)
Definition startRecording_resolved (p : Props) (nav : Navigator) (w : World) : World :=
  let '(stream, e) := openStream (settleUserMedia (env w)) in
  let mimeType := selectMimeType (isTypeSupported nav) mimeTypes in
  let '(mediaRecorder, e) :=
    new_MediaRecorder stream (recorder_options mimeType) mimeType e in
  let w := set_mediaRecorderRef (Some mediaRecorder) w in
  let w := set_audioChunksRef [] w in
  let e := start mediaRecorder e in
  let w := setState recording w in
  let w := setRecordingTime 0 w in
  let '(timer, e) := setInterval e in
  set_timerRef (Some timer) (set_env e w).

(** [startRecording] after [getUserMedia] rejected: the [catch] block. *)
Definition startRecording_rejected (p : Props) (notAllowed : bool) (w : World) : World :=
  let w := set_env (settleUserMedia (env w)) w in
  if notAllowed
  then setError (JS.Str (permissionDenied (content (language p)))) w
  else setError (JS.Str (recordingError (content (language p)))) w.

(** [mediaRecorder.ondataavailable] *)
Definition ondataavailable (data : Blob) (w : World) : World :=
  if (0 <? size data)%nat then set_audioChunksRef (audioChunksRef w ++ [data]) w else w.

(** [mediaRecorder.onstop] of the recorder [r]: it submits at once. *)
Definition onstop (p : Props) (r : MediaRecorder) (w : World) : World :=
  let w := set_env (stopTracks (mr_stream r) (env w)) w in
  let audioBlob := new_Blob (audioChunksRef w) (blob_type_for (mr_mimeType r)) in
  let w := set_audioBlobRef (Some audioBlob) w in
  submitRecording p w.

(** [mediaRecorder.onerror] *)
Definition onerror (p : Props) (w : World) : World :=
  let w := setError (JS.Str (recordingError (content (language p)))) w in
  setState idle w.

Definition pauseRecording (w : World) : World :=
  if ref_state_is is_recording (mediaRecorderRef w) (env w)
  then match mediaRecorderRef w with
       | Some rid =>
           let w := set_env (pause rid (env w)) w in
           let w := setState paused w in
           match timerRef w with
           | Some timer => set_timerRef None (set_env (clearInterval timer (env w)) w)
           | None => w
           end
       | None => w
       end
  else w.

Definition resumeRecording (w : World) : World :=
  if ref_state_is is_paused (mediaRecorderRef w) (env w)
  then match mediaRecorderRef w with
       | Some rid =>
           let w := set_env (resume rid (env w)) w in
           let w := setState recording w in
           let '(timer, e) := setInterval (env w) in
           set_timerRef (Some timer) (set_env e w)
       | None => w
       end
  else w.

Definition finishRecording (w : World) : World :=
  let w := match timerRef w with
           | Some timer => set_timerRef None (set_env (clearInterval timer (env w)) w)
           | None => w
           end in
  if not_inactive (mediaRecorderRef w) (env w)
  then match mediaRecorderRef w with
       | Some rid => set_env (stop rid (env w)) w
       | None => w
       end
  else w.

(** The [catch] block of [submitRecording]. *)
Definition submit_failed (w : World) : World :=
  setState idle (setError (JS.Str "Failed to process recording") w).

(** The [else] branch of [submitRecording]. *)
Definition submit_refused (data : JS.value) (w : World) : World :=
  match JS.get data "error" with
  | JS.Throw _ => submit_failed w
  | JS.Normal e => setState idle (setError (JS.or e (JS.Str "Transcription failed")) w)
  end.

(** [submitRecording] from the moment [fetch] settles. *)
Definition submitRecording_settled (r : FetchResult) (w : World) : World :=
  match r with
  | Rejected _ => submit_failed w
  | Resolved response =>
      match json response with
      | JS.Throw _ => submit_failed w
      | JS.Normal data =>
          if ok response then
            match JS.get data "normalized_text" with
            | JS.Throw _ => submit_failed w
            | JS.Normal normalized_text =>
                if JS.truthy normalized_text
                then
                  let w := onTranscription normalized_text w in
                  let w := setRecordingTime 0 w in
                  let w := set_audioBlobRef None w in
                  setState idle w
                else submit_refused data w
            end
          else submit_refused data w
      end
  end.

(** [formatTime], for the values [recordingTime] takes. *)
Definition formatTime (seconds : nat) : string :=
  let mins := seconds / 60 in
  let secs := seconds mod 60 in
  (JS.toString mins ++ ":" ++ JS.padStart 2 "0" (JS.toString secs))%string.

(** *** The session as an event-driven machine *)

Inductive Event : Type :=
| ClickRecord
| UserMediaSettled (r : UserMediaResult)
| ClickPause
| ClickResume
| ClickFinish
| DataAvailable (rid : nat) (data : Blob)
| RecorderStop (rid : nat)
| RecorderError (rid : nat)
| Tick (timer : nat)
| FetchSettled (i : nat) (r : FetchResult)
| Unmount.

Fixpoint drop_nth {A : Type} (i : nat) (l : list A) : list A :=
  match l, i with
  | [], _ => []
  | _ :: rest, O => rest
  | x :: rest, S j => x :: drop_nth j rest
  end.

Definition is_idle (s : RecordingState) : bool :=
  match s with idle => true | _ => false end.

Definition is_recording_state (s : RecordingState) : bool :=
  match s with recording => true | _ => false end.

Definition is_paused_state (s : RecordingState) : bool :=
  match s with paused => true | _ => false end.

Definition enabled (p : Props) (w : World) (ev : Event) : bool :=
  match ev with
  | ClickRecord => mounted w && is_idle (state w) && negb (disabled p)
  | UserMediaSettled _ => (0 <? pendingUserMedia (env w))%nat
  | ClickPause => mounted w && is_recording_state (state w)
  | ClickResume => mounted w && is_paused_state (state w)
  | ClickFinish => mounted w && (is_recording_state (state w) || is_paused_state (state w))
  | DataAvailable rid _ =>
      match recorder rid (env w) with
      | Some r => is_recording (mr_state r) || mr_stopping r
      | None => false
      end
  | RecorderStop rid =>
      match recorder rid (env w) with
      | Some r => mr_stopping r
      | None => false
      end
  | RecorderError rid =>
      match recorder rid (env w) with
      | Some r => negb (is_inactive (mr_state r))
      | None => false
      end
  | Tick timer => existsb (Nat.eqb timer) (activeTimers (env w))
  | FetchSettled i _ => (i <? List.length (inflight w))%nat
  | Unmount => mounted w
  end.

Definition step (p : Props) (nav : Navigator) (ev : Event) (w : World) : World :=
  match ev with
  | ClickRecord => startRecording p nav w
  | UserMediaSettled Granted => startRecording_resolved p nav w
  | UserMediaSettled NotAllowedError => startRecording_rejected p true w
  | UserMediaSettled OtherError => startRecording_rejected p false w
  | ClickPause => pauseRecording w
  | ClickResume => resumeRecording w
  | ClickFinish => finishRecording w
  | DataAvailable rid data =>
      match recorder rid (env w) with
      | Some _ => ondataavailable data w
      | None => w
      end
  | RecorderStop rid =>
      match recorder rid (env w) with
      | Some r => onstop p r (set_env (stopped rid (env w)) w)
      | None => w
      end
  | RecorderError rid =>
      match recorder rid (env w) with
      | Some _ => onerror p (set_env (failed rid (env w)) w)
      | None => w
      end
  | Tick _ => setRecordingTime (recordingTime w + 1) w
  | FetchSettled i r =>
      match nth_error (inflight w) i with
      | Some _ => submitRecording_settled r (set_inflight (drop_nth i (inflight w)) w)
      | None => w
      end
  | Unmount => cleanup (set_mounted false w)
  end.

Fixpoint run (p : Props) (nav : Navigator) (evs : list Event) (w : World) : option World :=
  match evs with
  | [] => Some w
  | ev :: rest => if enabled p w ev then run p nav rest (step p nav ev w) else None
  end.

End VoiceInputEnhanced.

(** ** The authentication context *)

(** What the code reads of the Supabase types. *)
Module Supabase.

Record User : Type := { id : string }.

Record Session : Type := { access_token : string; user : User }.

End Supabase.

Module AuthContext.

(** The three [useState] cells of [AuthProvider]. *)
Record AuthState : Type := {
  user : option Supabase.User;
  session : option Supabase.Session;
  isLoading : bool
}.

Definition initial : AuthState :=
  {| user := None; session := None; isLoading := true |}.

(** [session?.user ?? null] *)
Definition user_of (session : option Supabase.Session) : option Supabase.User :=
  option_map Supabase.user session.

Inductive Event : Type :=
| GetSessionSettled (r : JS.completion (option Supabase.Session))
                              (* [getInitialSession]: [getSession] settles *)
| AuthStateChange (session : option Supabase.Session)
                              (* the [onAuthStateChange] callback *)
| SignOutSettled (resolved : bool).
                              (* [logout]: [signOut] settles *)

Definition step (ev : Event) (st : AuthState) : AuthState :=
  match ev with
  | GetSessionSettled (JS.Normal s) =>
      {| user := user_of s; session := s; isLoading := false |}
  | GetSessionSettled (JS.Throw _) =>
      {| user := user st; session := session st; isLoading := false |}
  | AuthStateChange s =>
      {| user := user_of s; session := s; isLoading := false |}
  | SignOutSettled true =>
      {| user := None; session := None; isLoading := isLoading st |}
  | SignOutSettled false => st
  end.

(** [isAuthenticated: !!user] *)
Definition isAuthenticated (st : AuthState) : bool :=
  match user st with Some _ => true | None => false end.

(** [getAccessToken]: [session?.access_token ?? null] *)
Definition getAccessToken (st : AuthState) : option string :=
  option_map Supabase.access_token (session st).

(** [useAuth]: the context value, or the error thrown outside a provider. *)
Definition useAuth {A : Type} (context : option A) : JS.completion A :=
  match context with
  | Some value => JS.Normal value
  | None => JS.Throw "Error: useAuth must be used within an AuthProvider"
  end.


(** [url?.split('//')[1]?.split('.')[0]] *)
Definition project_ref (url : option string) : option string :=
  match url with
  | None => None
  | Some u =>
      match nth_error (JS.split "//" u) 1 with
      | None => None
      | Some host => nth_error (JS.split "." host) 0
      end
  end.

(** A value inside a template literal. *)
Definition interpolate (v : option string) : string :=
  match v with Some s => s | None => "undefined" end.

Definition storageKey (url : option string) : string :=
  ("sb-" ++ interpolate (project_ref url) ++ "-auth-token")%string.


End AuthContext.

(** ** The selection rule in the words of the specification *)

Module Spec.


End Spec.

(** ** Sample inputs *)

Module Samples.
Import Web Browser.

(** A browser with a microphone whose recorder supports none of the
    preferred types. *)
Definition plain_browser : Navigator :=
  {| mediaDevices := true; isTypeSupported := fun _ => false |}.


Definition chunk : Blob := {| blob_data := [x01; x02]; blob_type := "" |}.

Definition empty_chunk : Blob := {| blob_data := []; blob_type := "" |}.

(** HTTP 200 with [{ normalized_text: "hello" }]. *)
Definition hello : Response :=
  {| status := 200; body := Json (JS.Obj [("normalized_text", JS.Str "hello")]) |}.

(** HTTP 500 with [{ error: "oops" }]. *)
Definition oops : Response :=
  {| status := 500; body := Json (JS.Obj [("error", JS.Str "oops")]) |}.

(** HTTP 502 with a body that is not JSON. *)
Definition bad_gateway : Response :=
  {| status := 502; body := NotJson "SyntaxError: Unexpected token '<'" |}.

(** HTTP 422 with [{ detail: "too short", error: "E42" }]. *)
Definition unprocessable : Response :=
  {| status := 422;
     body := Json (JS.Obj [("detail", JS.Str "too short"); ("error", JS.Str "E42")]) |}.

Definition init_error (st : Z) : JS.exn := "RangeError: invalid status".


Definition voice_platform (r : FetchResult) : VoiceRoute.Platform :=
  {| VoiceRoute.NEXT_PUBLIC_API_BASE_URL := None;
     VoiceRoute.backend := fun _ => r;
     VoiceRoute.init_error := init_error |}.

(** A form with a recording and a language tag, and one without audio. *)
Definition form_with_audio : FormData :=
  [("audio", FFile chunk "recording.webm"); ("language", FString "en")].

Definition form_without_audio : FormData := [("language", FString "en")].

Definition review_props : VoiceInputReview.Props :=
  {| VoiceInputReview.language := VoiceInputReview.en;
     VoiceInputReview.disabled := false |}.

Definition enhanced_props : VoiceInputEnhanced.Props :=
  {| VoiceInputEnhanced.language := VoiceInputEnhanced.en;
     VoiceInputEnhanced.disabled := false |}.

(** The record button is clicked twice while the permission prompt is
    open; the first capture is stopped and submitted; the second capture
    then starts, is stopped, and is discarded with "record again" while
    the request of the first is still pending. *)
Definition review_reset_in_flight : list VoiceInputReview.Event :=
  [VoiceInputReview.ClickRecord;
   VoiceInputReview.ClickRecord;
   VoiceInputReview.UserMediaSettled Granted;
   VoiceInputReview.DataAvailable 0 chunk;
   VoiceInputReview.ClickStop;
   VoiceInputReview.RecorderStop 0;
   VoiceInputReview.ClickUseThis;
   VoiceInputReview.UserMediaSettled Granted;
   VoiceInputReview.ClickStop;
   VoiceInputReview.RecorderStop 1;
   VoiceInputReview.ClickRecordAgain].

(** The same double click; both captures are finished and submitted, and
    the response to the second arrives first and resets the session. *)
Definition enhanced_reset_in_flight : list VoiceInputEnhanced.Event :=
  [VoiceInputEnhanced.ClickRecord;
   VoiceInputEnhanced.ClickRecord;
   VoiceInputEnhanced.UserMediaSettled Granted;
   VoiceInputEnhanced.DataAvailable 0 chunk;
   VoiceInputEnhanced.ClickFinish;
   VoiceInputEnhanced.RecorderStop 0;
   VoiceInputEnhanced.UserMediaSettled Granted;
   VoiceInputEnhanced.DataAvailable 1 chunk;
   VoiceInputEnhanced.ClickFinish;
   VoiceInputEnhanced.RecorderStop 1;
   VoiceInputEnhanced.FetchSettled 1 (Resolved hello)].

(** A capture is recorded, stopped and submitted. *)
Definition review_submitted : VoiceInputReview.World :=
  Eval vm_compute in
  fold_left (fun w ev => VoiceInputReview.step review_props plain_browser ev w)
    [VoiceInputReview.ClickRecord;
     VoiceInputReview.UserMediaSettled Granted;
     VoiceInputReview.DataAvailable 0 chunk;
     VoiceInputReview.ClickStop;
     VoiceInputReview.RecorderStop 0;
     VoiceInputReview.ClickUseThis]
    VoiceInputReview.init.

(** The run [review_reset_in_flight] has taken place. *)
Definition review_reset_world : VoiceInputReview.World :=
  Eval vm_compute in
  fold_left (fun w ev => VoiceInputReview.step review_props plain_browser ev w)
    review_reset_in_flight VoiceInputReview.init.

Definition enhanced_submitted : VoiceInputEnhanced.World :=
  Eval vm_compute in
  fold_left (fun w ev => VoiceInputEnhanced.step enhanced_props plain_browser ev w)
    [VoiceInputEnhanced.ClickRecord;
     VoiceInputEnhanced.UserMediaSettled Granted;
     VoiceInputEnhanced.DataAvailable 0 chunk;
     VoiceInputEnhanced.ClickFinish;
     VoiceInputEnhanced.RecorderStop 0]
    VoiceInputEnhanced.init.

(** The run [enhanced_reset_in_flight] has taken place. *)
Definition enhanced_reset_world : VoiceInputEnhanced.World :=
  Eval vm_compute in
  fold_left (fun w ev => VoiceInputEnhanced.step enhanced_props plain_browser ev w)
    enhanced_reset_in_flight VoiceInputEnhanced.init.

(** The permission is granted, then the recorder reports an error. *)
Definition review_recorder_error : list VoiceInputReview.Event :=
  [VoiceInputReview.ClickRecord;
   VoiceInputReview.UserMediaSettled Granted;
   VoiceInputReview.RecorderError 0].

Definition enhanced_recorder_error : list VoiceInputEnhanced.Event :=
  [VoiceInputEnhanced.ClickRecord;
   VoiceInputEnhanced.UserMediaSettled Granted;
   VoiceInputEnhanced.RecorderError 0].

(** After the error the browser dispatches the recorder's [stop] event,
    the submission it triggers fails, and the user records again. *)
Definition enhanced_second_capture : list VoiceInputEnhanced.Event :=
  enhanced_recorder_error ++
  [VoiceInputEnhanced.RecorderStop 0;
   VoiceInputEnhanced.FetchSettled 0 (Resolved oops);
   VoiceInputEnhanced.ClickRecord;
   VoiceInputEnhanced.UserMediaSettled Granted].

End Samples.

(** ** Notions used in the statements below *)

Module Notions.

(** Reading decimal digits back. *)
Definition parse_decimal (s : string) : nat :=
  match NilZero.uint_of_string s with
  | Some d => Nat.of_uint d
  | None => 0
  end.

(** The character [c] does not occur in [s]. *)
Definition lacks (c : ascii) (s : string) : Prop :=
  ~ In c (list_ascii_of_string s).

(** The runs of the authentication context from its initial state. *)
Definition auth_run (evs : list AuthContext.Event) : AuthContext.AuthState :=
  fold_left (fun st ev => AuthContext.step ev st) evs AuthContext.initial.

End Notions.

(** ** More sample inputs *)

Module MoreSamples.
Import Web Browser.

(** A capture is running: the permission was granted. *)
Definition review_recording : VoiceInputReview.World :=
  Eval vm_compute in
  fold_left (fun w ev => VoiceInputReview.step Samples.review_props Samples.plain_browser ev w)
    [VoiceInputReview.ClickRecord; VoiceInputReview.UserMediaSettled Granted]
    VoiceInputReview.init.

Definition enhanced_recording : VoiceInputEnhanced.World :=
  Eval vm_compute in
  fold_left
    (fun w ev => VoiceInputEnhanced.step Samples.enhanced_props Samples.plain_browser ev w)
    [VoiceInputEnhanced.ClickRecord; VoiceInputEnhanced.UserMediaSettled Granted]
    VoiceInputEnhanced.init.



(** The recorder created by that start. *)
Definition first_recorder : MediaRecorder :=
  {| mr_stream := 0; mr_mimeType := ""; mr_options := None;
     mr_state := mr_recording; mr_stopping := false |}.

(** A browser without [navigator.mediaDevices]. *)
Definition old_browser : Navigator :=
  {| mediaDevices := false; isTypeSupported := fun _ => false |}.


(** A signed-in session. *)
Definition alice : Supabase.Session :=
  {| Supabase.access_token := "token-1"; Supabase.user := {| Supabase.id := "alice" |} |}.


End MoreSamples.

(** * Properties *)

(** ** The route proxies *)

Section Routes.
Import Web.


Lemma NextResponse_json_500 (f : Z -> JS.exn) (data : JS.value) :
  NextResponse_json f data 500 = JS.Normal {| res_status := 500; res_body := data |}.
Proof. reflexivity. Qed.

Lemma NextResponse_json_ok (f : Z -> JS.exn) (data : JS.value) (st : Z) :
  init_status_ok st = true ->
  NextResponse_json f data st = JS.Normal {| res_status := st; res_body := data |}.
Proof. intro H; unfold NextResponse_json; rewrite H; reflexivity. Qed.

(** The publish proxy sends exactly one backend request, to the publish
    URL of the website, with the headers [build_headers] makes. *)
Lemma publish_sends_one (P : PublishRoute.Platform) (request : PublishRoute.NextRequest)
    (id : string) :
  snd (PublishRoute.POST P request id) =
    [{| PublishRoute.url :=
          (BACKEND_URL (PublishRoute.NEXT_PUBLIC_API_BASE_URL P) ++ "/api/publish/" ++ id)%string;
        PublishRoute.method := "POST";
        PublishRoute.backend_headers :=
          PublishRoute.build_headers
            (Headers_get "Authorization" (PublishRoute.headers request)) |}].
Proof.
  unfold PublishRoute.POST.
  destruct (PublishRoute.backend P _) as [r | e]; [| reflexivity].
  destruct (json r); [| reflexivity].
  destruct (NextResponse_json _ _ _); reflexivity.
Qed.


End Routes.




(** C8, as stated, fails on a backend response that is not 2xx and whose
    body is not JSON, or is the JSON value [null]: [response.json()], or
    the read of [data.detail], throws, and the client receives HTTP 500
    with the message of the [catch] block rather than the backend's status
    with ['Transcription failed']. *)
Lemma C8_counterexample :
  Web.ok Samples.bad_gateway = false
  /\ fst (VoiceRoute.POST (Samples.voice_platform (Web.Resolved Samples.bad_gateway))
            {| VoiceRoute.formData := JS.Normal Samples.form_with_audio |})
     = JS.Normal
         {| Web.res_status := 500;
            Web.res_body := JS.Obj [("error", JS.Str "Failed to process voice recording")] |}
  /\ fst (VoiceRoute.POST
            (Samples.voice_platform
               (Web.Resolved {| Web.status := 503; Web.body := Web.Json JS.Null |}))
            {| VoiceRoute.formData := JS.Normal Samples.form_with_audio |})
     = JS.Normal
         {| Web.res_status := 500;
            Web.res_body := JS.Obj [("error", JS.Str "Failed to process voice recording")] |}.
Proof. repeat split; reflexivity. Qed.

(** C8, amended.  When the backend answers the voice proxy with a status
    that is not 2xx (and that a response with a body may carry) and a body
    that parses as JSON to a value other than [null], the client receives
    the same status and the body [{ error: d }], where [d] is the body's
    [detail] field if that is truthy and ['Transcription failed']
    otherwise.  Nothing else of the backend's body is in the response. *)
Theorem C8_voice_error_forwarding
    (P : VoiceRoute.Platform) (fd : Web.FormData) (req : VoiceRoute.BackendRequest)
    (r : Web.Response) (data detail : JS.value) :
  snd (VoiceRoute.POST P {| VoiceRoute.formData := JS.Normal fd |}) = [req] ->
  VoiceRoute.backend P req = Web.Resolved r ->
  Web.ok r = false ->
  Web.body r = Web.Json data ->
  JS.get data "detail" = JS.Normal detail ->
  Web.init_status_ok (Web.status r) = true ->
  fst (VoiceRoute.POST P {| VoiceRoute.formData := JS.Normal fd |})
  = JS.Normal
      {| Web.res_status := Web.status r;
         Web.res_body :=
           JS.Obj [("error",
                    if JS.truthy detail then detail else JS.Str "Transcription failed")] |}.
Proof.
  intros Hsent Hb Hok Hbody Hdetail Hst.
  unfold VoiceRoute.POST in *. cbn [VoiceRoute.formData] in *.
  destruct (VoiceRoute.missing (Web.FormData_get "audio" fd)).
  - destruct (Web.NextResponse_json _ _ 400); discriminate Hsent.
  - set (q := VoiceRoute.Build_BackendRequest _ _ _) in *.
    assert (Hq : req = q).
    { destruct (VoiceRoute.backend P q) as [r' | e];
        [destruct (Web.json r');
         [destruct (Web.ok r');
          [destruct (Web.NextResponse_json _ _ _)
          | destruct (JS.get _ _); [destruct (Web.NextResponse_json _ _ _) |]] |] |];
        cbn [snd] in Hsent; congruence. }
    subst req. rewrite Hb. unfold Web.json. rewrite Hbody, Hok, Hdetail.
    rewrite (NextResponse_json_ok _ _ _ Hst). reflexivity.
Qed.

Lemma C8_voice_error_forwarding_witness :
  fst (VoiceRoute.POST (Samples.voice_platform (Web.Resolved Samples.unprocessable))
         {| VoiceRoute.formData := JS.Normal Samples.form_with_audio |})
  = JS.Normal
      {| Web.res_status := 422;
         Web.res_body := JS.Obj [("error", JS.Str "too short")] |}.
Proof.
  exact (C8_voice_error_forwarding
           (Samples.voice_platform (Web.Resolved Samples.unprocessable))
           Samples.form_with_audio _ Samples.unprocessable _ (JS.Str "too short")
           eq_refl eq_refl eq_refl eq_refl eq_refl eq_refl).
Defined.

(** C10.  A request to the voice proxy whose form data has no [audio]
    field is answered with HTTP 400 and [{ error: 'No audio file
    provided' }], and no request is sent to the backend. *)
Theorem C10_voice_no_audio (P : VoiceRoute.Platform) (fd : Web.FormData) :
  Web.FormData_get "audio" fd = None ->
  VoiceRoute.POST P {| VoiceRoute.formData := JS.Normal fd |}
  = (JS.Normal
       {| Web.res_status := 400;
          Web.res_body := JS.Obj [("error", JS.Str "No audio file provided")] |},
     []).
Proof.
  intro Hnone. unfold VoiceRoute.POST. cbn [VoiceRoute.formData].
  rewrite Hnone. reflexivity.
Qed.

Lemma C10_voice_no_audio_witness :
  VoiceRoute.POST (Samples.voice_platform (Web.Resolved Samples.hello))
    {| VoiceRoute.formData := JS.Normal Samples.form_without_audio |}
  = (JS.Normal
       {| Web.res_status := 400;
          Web.res_body := JS.Obj [("error", JS.Str "No audio file provided")] |},
     []).
Proof.
  exact (C10_voice_no_audio (Samples.voice_platform (Web.Resolved Samples.hello))
           Samples.form_without_audio eq_refl).
Defined.

(** ** The recorder sessions *)

Ltac break_match :=
  match goal with
  | |- context [match ?x with _ => _ end] => destruct x eqn:?
  end.

Section Recorders.
Import Web Browser.

(** The effect cleanup touches the browser objects only. *)
Lemma review_cleanup_frame (u : option nat) (w : VoiceInputReview.World) :
  VoiceInputReview.cleanup u w
  = VoiceInputReview.set_env (VoiceInputReview.env (VoiceInputReview.cleanup u w)) w.
Proof.
  unfold VoiceInputReview.cleanup.
  destruct w as [st er rt au ip mr ch [t |] ar bl e fl tr mo], u as [url |]; cbn;
    destruct (not_inactive mr _); destruct mr; reflexivity.
Qed.

(** So does the re-render that follows a handler. *)
Lemma review_step_frame (p : VoiceInputReview.Props) (nav : Navigator)
    (ev : VoiceInputReview.Event) (w : VoiceInputReview.World) :
  VoiceInputReview.step p nav ev w
  = VoiceInputReview.set_env
      (VoiceInputReview.env (VoiceInputReview.step p nav ev w))
      (VoiceInputReview.handle p nav ev w).
Proof.
  unfold VoiceInputReview.step.
  destruct (_ && _).
  - rewrite review_cleanup_frame at 1. reflexivity.
  - destruct (VoiceInputReview.handle p nav ev w); reflexivity.
Qed.

Lemma nth_error_in_range {A : Type} (l : list A) (i : nat) :
  i < List.length l -> exists x, nth_error l i = Some x.
Proof.
  intro H. destruct (nth_error l i) eqn:E; [eauto |].
  apply nth_error_None in E. lia.
Qed.

End Recorders.

(** C4.  In either variant, when a pending submission is answered with
    HTTP 200 and the body [{ normalized_text: "hello" }], [onTranscription]
    is called once more, with ["hello"], and the session is reset: the
    state is [idle], the blob reference is cleared and the timer value is
    zero (in the review variant the playback URL is cleared as well). *)
Theorem C4_hello_calls_back_once
    (pr : VoiceInputReview.Props) (pe : VoiceInputEnhanced.Props) (nav : Browser.Navigator)
    (wr : VoiceInputReview.World) (we : VoiceInputEnhanced.World) (i j : nat) :
  i < List.length (VoiceInputReview.inflight wr) ->
  j < List.length (VoiceInputEnhanced.inflight we) ->
  let wr' := VoiceInputReview.step pr nav
               (VoiceInputReview.FetchSettled i (Web.Resolved Samples.hello)) wr in
  let we' := VoiceInputEnhanced.step pe nav
               (VoiceInputEnhanced.FetchSettled j (Web.Resolved Samples.hello)) we in
  (VoiceInputReview.transcriptions wr'
     = VoiceInputReview.transcriptions wr ++ [JS.Str "hello"]
   /\ VoiceInputReview.state wr' = VoiceInputReview.idle
   /\ VoiceInputReview.audioBlobRef wr' = None
   /\ VoiceInputReview.audioUrl wr' = None
   /\ VoiceInputReview.recordingTime wr' = 0)
  /\ (VoiceInputEnhanced.transcriptions we'
        = VoiceInputEnhanced.transcriptions we ++ [JS.Str "hello"]
      /\ VoiceInputEnhanced.state we' = VoiceInputEnhanced.idle
      /\ VoiceInputEnhanced.audioBlobRef we' = None
      /\ VoiceInputEnhanced.recordingTime we' = 0).
Proof.
  intros Hi Hj wr' we'.
  destruct (nth_error_in_range _ _ Hi) as [req Hreq].
  destruct (nth_error_in_range _ _ Hj) as [req' Hreq'].
  split.
  - subst wr'. rewrite review_step_frame.
    cbn [VoiceInputReview.handle]. rewrite Hreq.
    unfold VoiceInputReview.submitRecording_settled, VoiceInputReview.resetRecording.
    destruct wr, req as [fm [url |]]; cbn; repeat break_match; cbn; repeat split.
  - subst we'. cbn [VoiceInputEnhanced.step]. rewrite Hreq'.
    cbn. repeat split.
Qed.

Lemma C4_hello_calls_back_once_witness :
  (VoiceInputReview.transcriptions
     (VoiceInputReview.step Samples.review_props Samples.plain_browser
        (VoiceInputReview.FetchSettled 0 (Web.Resolved Samples.hello))
        Samples.review_submitted)
   = VoiceInputReview.transcriptions Samples.review_submitted ++ [JS.Str "hello"]
   /\ VoiceInputReview.state
        (VoiceInputReview.step Samples.review_props Samples.plain_browser
           (VoiceInputReview.FetchSettled 0 (Web.Resolved Samples.hello))
           Samples.review_submitted)
      = VoiceInputReview.idle)
  /\ VoiceInputEnhanced.state
       (VoiceInputEnhanced.step Samples.enhanced_props Samples.plain_browser
          (VoiceInputEnhanced.FetchSettled 0 (Web.Resolved Samples.hello))
          Samples.enhanced_submitted)
     = VoiceInputEnhanced.idle.
Proof.
  destruct (C4_hello_calls_back_once Samples.review_props Samples.enhanced_props
              Samples.plain_browser Samples.review_submitted Samples.enhanced_submitted
              0 0) as [[Ht [Hs _]] [_ [Hs' _]]].
  - vm_compute. lia.
  - vm_compute. lia.
  - split; [split |]; assumption.
Defined.

(** C5.  In either variant, when a pending submission is answered with
    HTTP 500 and the body [{ error: "oops" }], the error shown is ["oops"]
    and [onTranscription] is not called; in the review variant the state
    returns to [review] with the blob reference unchanged, in the other
    variant it returns to [idle]. *)
Theorem C5_oops_is_shown
    (pr : VoiceInputReview.Props) (pe : VoiceInputEnhanced.Props) (nav : Browser.Navigator)
    (wr : VoiceInputReview.World) (we : VoiceInputEnhanced.World) (i j : nat) :
  i < List.length (VoiceInputReview.inflight wr) ->
  j < List.length (VoiceInputEnhanced.inflight we) ->
  let wr' := VoiceInputReview.step pr nav
               (VoiceInputReview.FetchSettled i (Web.Resolved Samples.oops)) wr in
  let we' := VoiceInputEnhanced.step pe nav
               (VoiceInputEnhanced.FetchSettled j (Web.Resolved Samples.oops)) we in
  (VoiceInputReview.error wr' = JS.Str "oops"
   /\ VoiceInputReview.transcriptions wr' = VoiceInputReview.transcriptions wr
   /\ VoiceInputReview.state wr' = VoiceInputReview.review
   /\ VoiceInputReview.audioBlobRef wr' = VoiceInputReview.audioBlobRef wr)
  /\ (VoiceInputEnhanced.error we' = JS.Str "oops"
      /\ VoiceInputEnhanced.transcriptions we' = VoiceInputEnhanced.transcriptions we
      /\ VoiceInputEnhanced.state we' = VoiceInputEnhanced.idle).
Proof.
  intros Hi Hj wr' we'.
  destruct (nth_error_in_range _ _ Hi) as [req Hreq].
  destruct (nth_error_in_range _ _ Hj) as [req' Hreq'].
  split.
  - subst wr'. rewrite review_step_frame.
    cbn [VoiceInputReview.handle]. rewrite Hreq.
    destruct wr; cbn. repeat split.
  - subst we'. cbn [VoiceInputEnhanced.step]. rewrite Hreq'.
    destruct we; cbn. repeat split.
Qed.

Lemma C5_oops_is_shown_witness :
  (VoiceInputReview.error
     (VoiceInputReview.step Samples.review_props Samples.plain_browser
        (VoiceInputReview.FetchSettled 0 (Web.Resolved Samples.oops))
        Samples.review_submitted)
   = JS.Str "oops"
   /\ VoiceInputReview.audioBlobRef
        (VoiceInputReview.step Samples.review_props Samples.plain_browser
           (VoiceInputReview.FetchSettled 0 (Web.Resolved Samples.oops))
           Samples.review_submitted)
      = VoiceInputReview.audioBlobRef Samples.review_submitted)
  /\ VoiceInputEnhanced.error
       (VoiceInputEnhanced.step Samples.enhanced_props Samples.plain_browser
          (VoiceInputEnhanced.FetchSettled 0 (Web.Resolved Samples.oops))
          Samples.enhanced_submitted)
     = JS.Str "oops".
Proof.
  destruct (C5_oops_is_shown Samples.review_props Samples.enhanced_props
              Samples.plain_browser Samples.review_submitted Samples.enhanced_submitted
              0 0) as [[He [_ [_ Hb]]] [He' _]].
  - vm_compute. lia.
  - vm_compute. lia.
  - split; [split |]; assumption.
Defined.

Lemma option_nat_eqb_refl (a : option nat) : Browser.option_nat_eqb a a = true.
Proof. destruct a; simpl; [apply Nat.eqb_refl | reflexivity]. Qed.

(** C9.  In either variant, with the blob reference null [submitRecording]
    returns at once and leaves the whole session as it was: no request is
    added to the pending ones, nothing is passed to [onTranscription], and
    state, error message and timer value are unchanged.  In the review
    variant the same holds of the click on "use this" as a whole. *)
Theorem C9_submit_without_blob
    (pr : VoiceInputReview.Props) (pe : VoiceInputEnhanced.Props) (nav : Browser.Navigator)
    (wr : VoiceInputReview.World) (we : VoiceInputEnhanced.World) :
  VoiceInputReview.audioBlobRef wr = None ->
  VoiceInputEnhanced.audioBlobRef we = None ->
  VoiceInputReview.submitRecording pr wr = wr
  /\ VoiceInputReview.step pr nav VoiceInputReview.ClickUseThis wr = wr
  /\ VoiceInputEnhanced.submitRecording pe we = we.
Proof.
  intros Hr He.
  assert (H : VoiceInputReview.submitRecording pr wr = wr)
    by (unfold VoiceInputReview.submitRecording; rewrite Hr; reflexivity).
  repeat split.
  - exact H.
  - unfold VoiceInputReview.step. cbn [VoiceInputReview.handle].
    rewrite H, option_nat_eqb_refl, Bool.andb_false_r. reflexivity.
  - unfold VoiceInputEnhanced.submitRecording. rewrite He. reflexivity.
Qed.

Lemma C9_submit_without_blob_witness :
  VoiceInputReview.submitRecording Samples.review_props VoiceInputReview.init
  = VoiceInputReview.init
  /\ VoiceInputEnhanced.submitRecording Samples.enhanced_props VoiceInputEnhanced.init
     = VoiceInputEnhanced.init.
Proof.
  destruct (C9_submit_without_blob Samples.review_props Samples.enhanced_props
              Samples.plain_browser VoiceInputReview.init VoiceInputEnhanced.init
              eq_refl eq_refl) as [Hr [_ He]].
  split; assumption.
Defined.

(** C1, as stated, fails in both variants.  In the run
    [Samples.review_reset_in_flight] the session has been reset (state
    [idle], blob reference null) while one request is still pending, and
    the response to that request is passed to [onTranscription] all the
    same.  In the run [Samples.enhanced_reset_in_flight] the response to a
    second submission has reset the session, and the response to the first
    is then passed on as well. *)
Lemma C1_counterexample :
  option_map
    (fun w => (VoiceInputReview.state w, VoiceInputReview.audioBlobRef w,
               List.length (VoiceInputReview.inflight w),
               VoiceInputReview.transcriptions w))
    (VoiceInputReview.run Samples.review_props Samples.plain_browser
       Samples.review_reset_in_flight VoiceInputReview.init)
  = Some (VoiceInputReview.idle, None, 1, [])
  /\ option_map VoiceInputReview.transcriptions
       (VoiceInputReview.run Samples.review_props Samples.plain_browser
          (Samples.review_reset_in_flight
             ++ [VoiceInputReview.FetchSettled 0 (Web.Resolved Samples.hello)])
          VoiceInputReview.init)
     = Some [JS.Str "hello"]
  /\ option_map
       (fun w => (VoiceInputEnhanced.state w, VoiceInputEnhanced.audioBlobRef w,
                  List.length (VoiceInputEnhanced.inflight w),
                  VoiceInputEnhanced.transcriptions w))
       (VoiceInputEnhanced.run Samples.enhanced_props Samples.plain_browser
          Samples.enhanced_reset_in_flight VoiceInputEnhanced.init)
     = Some (VoiceInputEnhanced.idle, None, 1, [JS.Str "hello"])
  /\ option_map VoiceInputEnhanced.transcriptions
       (VoiceInputEnhanced.run Samples.enhanced_props Samples.plain_browser
          (Samples.enhanced_reset_in_flight
             ++ [VoiceInputEnhanced.FetchSettled 0 (Web.Resolved Samples.hello)])
          VoiceInputEnhanced.init)
     = Some [JS.Str "hello"; JS.Str "hello"].
Proof. split; [| split; [| split]]; vm_compute; reflexivity. Qed.

(** C1, amended.  A reset does not silence a pending request.  In either
    variant and in every state of the session, whatever the blob
    reference holds by then, a response with an OK status whose body has a
    truthy [normalized_text] is passed to [onTranscription]. *)
Theorem C1_response_is_passed_on
    (pr : VoiceInputReview.Props) (pe : VoiceInputEnhanced.Props) (nav : Browser.Navigator)
    (wr : VoiceInputReview.World) (we : VoiceInputEnhanced.World) (i j : nat)
    (r : Web.Response) (data text : JS.value) :
  i < List.length (VoiceInputReview.inflight wr) ->
  j < List.length (VoiceInputEnhanced.inflight we) ->
  Web.ok r = true ->
  Web.body r = Web.Json data ->
  JS.get data "normalized_text" = JS.Normal text ->
  JS.truthy text = true ->
  VoiceInputReview.transcriptions
    (VoiceInputReview.step pr nav (VoiceInputReview.FetchSettled i (Web.Resolved r)) wr)
  = VoiceInputReview.transcriptions wr ++ [text]
  /\ VoiceInputEnhanced.transcriptions
       (VoiceInputEnhanced.step pe nav
          (VoiceInputEnhanced.FetchSettled j (Web.Resolved r)) we)
     = VoiceInputEnhanced.transcriptions we ++ [text].
Proof.
  intros Hi Hj Hok Hbody Hget Htruthy.
  destruct (nth_error_in_range _ _ Hi) as [req Hreq].
  destruct (nth_error_in_range _ _ Hj) as [req' Hreq'].
  split.
  - rewrite review_step_frame.
    cbn [VoiceInputReview.handle]. rewrite Hreq.
    unfold VoiceInputReview.submitRecording_settled, Web.json.
    rewrite Hbody, Hok, Hget, Htruthy.
    unfold VoiceInputReview.resetRecording.
    destruct wr, req as [fm [url |]]; cbn; repeat break_match; reflexivity.
  - cbn [VoiceInputEnhanced.step]. rewrite Hreq'.
    unfold VoiceInputEnhanced.submitRecording_settled, Web.json.
    rewrite Hbody, Hok, Hget, Htruthy.
    destruct we; reflexivity.
Qed.

Lemma C1_response_is_passed_on_witness :
  (VoiceInputReview.audioBlobRef Samples.review_reset_world = None
   /\ VoiceInputReview.transcriptions
        (VoiceInputReview.step Samples.review_props Samples.plain_browser
           (VoiceInputReview.FetchSettled 0 (Web.Resolved Samples.hello))
           Samples.review_reset_world)
      = VoiceInputReview.transcriptions Samples.review_reset_world ++ [JS.Str "hello"])
  /\ (VoiceInputEnhanced.audioBlobRef Samples.enhanced_reset_world = None
      /\ VoiceInputEnhanced.transcriptions
           (VoiceInputEnhanced.step Samples.enhanced_props Samples.plain_browser
              (VoiceInputEnhanced.FetchSettled 0 (Web.Resolved Samples.hello))
              Samples.enhanced_reset_world)
         = VoiceInputEnhanced.transcriptions Samples.enhanced_reset_world
             ++ [JS.Str "hello"]).
Proof.
  destruct (C1_response_is_passed_on Samples.review_props Samples.enhanced_props
              Samples.plain_browser Samples.review_reset_world
              Samples.enhanced_reset_world 0 0 Samples.hello
              (JS.Obj [("normalized_text", JS.Str "hello")]) (JS.Str "hello"))
    as [Hr He].
  - vm_compute. lia.
  - vm_compute. lia.
  - reflexivity.
  - reflexivity.
  - reflexivity.
  - reflexivity.
  - split; (split; [vm_compute; reflexivity | assumption]).
Defined.

(** C3 fails on the error path.  [onerror] sets the message and the state
    and nothing else: after a recorder error the session is [idle] while
    its timer is still active (and still in [timerRef]) and the stream is
    still live.  In the variant with automatic submission nothing clears
    that timer later either: once the user records again, two timers are
    active. *)
Theorem C3_error_leaves_timer_running :
  option_map
    (fun w => (VoiceInputEnhanced.state w, VoiceInputEnhanced.timerRef w,
               Browser.activeTimers (VoiceInputEnhanced.env w),
               Browser.liveStreams (VoiceInputEnhanced.env w)))
    (VoiceInputEnhanced.run Samples.enhanced_props Samples.plain_browser
       Samples.enhanced_recorder_error VoiceInputEnhanced.init)
  = Some (VoiceInputEnhanced.idle, Some 0, [0], [0])
  /\ option_map
       (fun w => (VoiceInputEnhanced.state w,
                  Browser.activeTimers (VoiceInputEnhanced.env w),
                  Browser.liveStreams (VoiceInputEnhanced.env w)))
       (VoiceInputEnhanced.run Samples.enhanced_props Samples.plain_browser
          Samples.enhanced_second_capture VoiceInputEnhanced.init)
     = Some (VoiceInputEnhanced.recording, [0; 1], [1])
  /\ option_map
       (fun w => (VoiceInputReview.state w, VoiceInputReview.timerRef w,
                  Browser.activeTimers (VoiceInputReview.env w),
                  Browser.liveStreams (VoiceInputReview.env w)))
       (VoiceInputReview.run Samples.review_props Samples.plain_browser
          Samples.review_recorder_error VoiceInputReview.init)
     = Some (VoiceInputReview.idle, Some 0, [0], [0]).
Proof. split; [| split]; vm_compute; reflexivity. Qed.

(** ** Starting a capture *)

Section Start.
Import Web Browser.

Lemma selectMimeType_first (probe : string -> bool) (pre post : list string) (t : string) :
  (forall x, In x pre -> probe x = false) ->
  probe t = true ->
  selectMimeType probe (pre ++ t :: post) = t.
Proof.
  intros Hpre Ht. induction pre as [| x pre IH]; simpl.
  - rewrite Ht. reflexivity.
  - rewrite (Hpre x (or_introl eq_refl)). apply IH.
    intros y Hy. apply Hpre. right. exact Hy.
Qed.

Lemma selectMimeType_none (probe : string -> bool) (types : list string) :
  (forall x, In x types -> probe x = false) ->
  selectMimeType probe types = "".
Proof.
  intro H. induction types as [| x types IH]; simpl; [reflexivity |].
  rewrite (H x (or_introl eq_refl)). apply IH.
  intros y Hy. apply H. right. exact Hy.
Qed.



Lemma update_app_length {A : Type} (f : A -> A) (l : list A) (x : A) :
  update (List.length l) f (l ++ [x]) = l ++ [f x].
Proof. induction l as [| y l IH]; simpl; [reflexivity | now rewrite IH]. Qed.

Lemma nth_error_app_length {A : Type} (l : list A) (x : A) :
  nth_error (l ++ [x]) (List.length l) = Some x.
Proof. induction l as [| y l IH]; simpl; [reflexivity | exact IH]. Qed.

End Start.





(** ** Stopping before any data has arrived *)

Ltac browser_red H :=
  cbv beta iota zeta delta
    [Browser.recorders Browser.streams Browser.liveStreams Browser.timers
     Browser.activeTimers Browser.urls Browser.liveUrls Browser.pendingUserMedia
     Browser.with_recorders Browser.with_pending Browser.getUserMedia
     Browser.settleUserMedia Browser.openStream Browser.stopTracks Browser.setInterval
     Browser.clearInterval Browser.createObjectURL Browser.revokeObjectURL
     Browser.new_MediaRecorder Browser.set_recorder Browser.recorder Browser.start
     Browser.stop Browser.pause Browser.resume Browser.stopped Browser.failed
     Browser.is_inactive Browser.is_recording Browser.is_paused Browser.ref_state_is
     Browser.not_inactive Browser.mr_stream Browser.mr_mimeType Browser.mr_options
     Browser.mr_state Browser.mr_stopping fst snd] in H.

Ltac review_red H :=
  cbv beta iota zeta delta
    [VoiceInputReview.step VoiceInputReview.handle VoiceInputReview.cleanup
     VoiceInputReview.startRecording VoiceInputReview.startRecording_resolved
     VoiceInputReview.startRecording_rejected VoiceInputReview.ondataavailable
     VoiceInputReview.onstop VoiceInputReview.onerror VoiceInputReview.stopRecording
     VoiceInputReview.resetRecording VoiceInputReview.submitRecording
     VoiceInputReview.setState VoiceInputReview.setError
     VoiceInputReview.setRecordingTime VoiceInputReview.setAudioUrl
     VoiceInputReview.setIsPlaying VoiceInputReview.set_mediaRecorderRef
     VoiceInputReview.set_audioChunksRef VoiceInputReview.set_timerRef
     VoiceInputReview.set_audioRef VoiceInputReview.set_audioBlobRef
     VoiceInputReview.set_env VoiceInputReview.set_inflight
     VoiceInputReview.onTranscription VoiceInputReview.set_mounted
     VoiceInputReview.state VoiceInputReview.error VoiceInputReview.recordingTime
     VoiceInputReview.audioUrl VoiceInputReview.isPlaying
     VoiceInputReview.mediaRecorderRef VoiceInputReview.audioChunksRef
     VoiceInputReview.timerRef VoiceInputReview.audioRef VoiceInputReview.audioBlobRef
     VoiceInputReview.env VoiceInputReview.inflight VoiceInputReview.transcriptions
     VoiceInputReview.mounted] in H; browser_red H.

Ltac enhanced_red H :=
  cbv beta iota zeta delta
    [VoiceInputEnhanced.step VoiceInputEnhanced.cleanup
     VoiceInputEnhanced.startRecording VoiceInputEnhanced.startRecording_resolved
     VoiceInputEnhanced.startRecording_rejected VoiceInputEnhanced.ondataavailable
     VoiceInputEnhanced.onstop VoiceInputEnhanced.onerror
     VoiceInputEnhanced.finishRecording VoiceInputEnhanced.pauseRecording
     VoiceInputEnhanced.resumeRecording VoiceInputEnhanced.submitRecording
     VoiceInputEnhanced.setState VoiceInputEnhanced.setError
     VoiceInputEnhanced.setRecordingTime VoiceInputEnhanced.set_mediaRecorderRef
     VoiceInputEnhanced.set_audioChunksRef VoiceInputEnhanced.set_timerRef
     VoiceInputEnhanced.set_audioBlobRef VoiceInputEnhanced.set_env
     VoiceInputEnhanced.set_inflight VoiceInputEnhanced.onTranscription
     VoiceInputEnhanced.set_mounted
     VoiceInputEnhanced.state VoiceInputEnhanced.error VoiceInputEnhanced.recordingTime
     VoiceInputEnhanced.mediaRecorderRef VoiceInputEnhanced.audioChunksRef
     VoiceInputEnhanced.timerRef VoiceInputEnhanced.audioBlobRef
     VoiceInputEnhanced.env VoiceInputEnhanced.inflight
     VoiceInputEnhanced.transcriptions VoiceInputEnhanced.mounted] in H; browser_red H.

Section EmptyCapture.
Import Web Browser.

Lemma review_empty_data (p : VoiceInputReview.Props) (nav : Navigator) (rid : nat)
    (d : Blob) (w : VoiceInputReview.World) :
  size d = 0 ->
  VoiceInputReview.step p nav (VoiceInputReview.DataAvailable rid d) w = w.
Proof.
  intro Hd. unfold VoiceInputReview.step. cbn [VoiceInputReview.handle].
  unfold VoiceInputReview.ondataavailable. rewrite Hd. cbn.
  destruct (recorder rid _); rewrite option_nat_eqb_refl, Bool.andb_false_r; reflexivity.
Qed.

Lemma review_empty_flush (p : VoiceInputReview.Props) (nav : Navigator) (rid : nat)
    (flush : list Blob) (w : VoiceInputReview.World) :
  Forall (fun d => size d = 0) flush ->
  fold_left (fun w d => VoiceInputReview.step p nav (VoiceInputReview.DataAvailable rid d) w)
    flush w = w.
Proof.
  intro H. induction H as [| d flush Hd _ IH]; cbn [fold_left]; [reflexivity |].
  rewrite (review_empty_data p nav rid d w Hd). exact IH.
Qed.

Lemma enhanced_empty_data (p : VoiceInputEnhanced.Props) (nav : Navigator) (rid : nat)
    (d : Blob) (w : VoiceInputEnhanced.World) :
  size d = 0 ->
  VoiceInputEnhanced.step p nav (VoiceInputEnhanced.DataAvailable rid d) w = w.
Proof.
  intro Hd. cbn [VoiceInputEnhanced.step].
  unfold VoiceInputEnhanced.ondataavailable. rewrite Hd. cbn.
  destruct (recorder rid _); reflexivity.
Qed.

Lemma enhanced_empty_flush (p : VoiceInputEnhanced.Props) (nav : Navigator) (rid : nat)
    (flush : list Blob) (w : VoiceInputEnhanced.World) :
  Forall (fun d => size d = 0) flush ->
  fold_left
    (fun w d => VoiceInputEnhanced.step p nav (VoiceInputEnhanced.DataAvailable rid d) w)
    flush w = w.
Proof.
  intro H. induction H as [| d flush Hd _ IH]; cbn [fold_left]; [reflexivity |].
  rewrite (enhanced_empty_data p nav rid d w Hd). exact IH.
Qed.


Lemma review_capture_without_data (p : VoiceInputReview.Props) (nav : Navigator)
    (w : VoiceInputReview.World) :
  let rid := List.length (recorders (VoiceInputReview.env w)) in
  let w3 := VoiceInputReview.step p nav (VoiceInputReview.RecorderStop rid)
              (VoiceInputReview.step p nav VoiceInputReview.ClickStop
                 (VoiceInputReview.step p nav
                    (VoiceInputReview.UserMediaSettled Granted) w)) in
  VoiceInputReview.audioChunksRef w3 = []
  /\ VoiceInputReview.audioBlobRef w3
     = Some (new_Blob []
               (blob_type_for (selectMimeType (isTypeSupported nav) mimeTypes)))
  /\ VoiceInputReview.state w3 = VoiceInputReview.review
  /\ VoiceInputReview.inflight w3 = VoiceInputReview.inflight w.
Proof.
  intros rid w3. subst w3 rid.
  destruct w as [st er rt au ip mr ch tm ar bl [rs sn ls tn ts un us pn] fl tr mo].
  cbn [VoiceInputReview.env recorders VoiceInputReview.inflight].
  remember (VoiceInputReview.step p nav (VoiceInputReview.UserMediaSettled Granted) _)
    as w1 eqn:E1.
  review_red E1.
  rewrite option_nat_eqb_refl, Bool.andb_false_r, update_app_length in E1.
  review_red E1. subst w1.
  remember (VoiceInputReview.step p nav VoiceInputReview.ClickStop _) as w2 eqn:E2.
  review_red E2.
  rewrite !nth_error_app_length in E2. review_red E2.
  rewrite option_nat_eqb_refl, Bool.andb_false_r, update_app_length in E2.
  cbn [negb] in E2. review_red E2. subst w2.
  rewrite review_step_frame.
  remember (VoiceInputReview.handle p nav _ _) as w3 eqn:E3.
  review_red E3. rewrite !nth_error_app_length in E3. review_red E3.
  subst w3. repeat split.
Qed.

Lemma enhanced_capture_without_data (p : VoiceInputEnhanced.Props) (nav : Navigator)
    (w : VoiceInputEnhanced.World) :
  let rid := List.length (recorders (VoiceInputEnhanced.env w)) in
  let b := new_Blob [] (blob_type_for (selectMimeType (isTypeSupported nav) mimeTypes)) in
  let w3 := VoiceInputEnhanced.step p nav (VoiceInputEnhanced.RecorderStop rid)
              (VoiceInputEnhanced.step p nav VoiceInputEnhanced.ClickFinish
                 (VoiceInputEnhanced.step p nav
                    (VoiceInputEnhanced.UserMediaSettled Granted) w)) in
  VoiceInputEnhanced.audioChunksRef w3 = []
  /\ VoiceInputEnhanced.audioBlobRef w3 = Some b
  /\ VoiceInputEnhanced.state w3 = VoiceInputEnhanced.processing
  /\ VoiceInputEnhanced.inflight w3
     = VoiceInputEnhanced.inflight w
         ++ [{| VoiceInputEnhanced.form :=
                  [("audio", FFile b "recording.webm");
                   ("language",
                    FString (VoiceInputEnhanced.tag (VoiceInputEnhanced.language p)))] |}].
Proof.
  intros rid b w3. subst w3 b rid.
  destruct w as [st er rt mr ch tm bl [rs sn ls tn ts un us pn] fl tr mo].
  cbn [VoiceInputEnhanced.env recorders VoiceInputEnhanced.inflight].
  remember (VoiceInputEnhanced.step p nav (VoiceInputEnhanced.UserMediaSettled Granted) _)
    as w1 eqn:E1.
  enhanced_red E1. rewrite update_app_length in E1. enhanced_red E1. subst w1.
  remember (VoiceInputEnhanced.step p nav VoiceInputEnhanced.ClickFinish _) as w2 eqn:E2.
  enhanced_red E2. rewrite !nth_error_app_length in E2. enhanced_red E2.
  rewrite update_app_length in E2. cbn [negb] in E2. enhanced_red E2. subst w2.
  remember (VoiceInputEnhanced.step p nav (VoiceInputEnhanced.RecorderStop _) _)
    as w3 eqn:E3.
  enhanced_red E3. rewrite !nth_error_app_length in E3. enhanced_red E3.
  subst w3. repeat split.
Qed.

Lemma review_submit_with_blob (p : VoiceInputReview.Props) (nav : Navigator)
    (w : VoiceInputReview.World) (b : Blob) :
  VoiceInputReview.audioBlobRef w = Some b ->
  VoiceInputReview.inflight (VoiceInputReview.step p nav VoiceInputReview.ClickUseThis w)
  = VoiceInputReview.inflight w
      ++ [{| VoiceInputReview.form :=
               [("audio", FFile b "recording.webm");
                ("language", FString (VoiceInputReview.tag (VoiceInputReview.language p)))];
             VoiceInputReview.closure_audioUrl := VoiceInputReview.audioUrl w |}].
Proof.
  intro Hb. rewrite review_step_frame. cbn [VoiceInputReview.handle].
  unfold VoiceInputReview.submitRecording. rewrite Hb.
  destruct w; reflexivity.
Qed.

Lemma review_settled_state (p : VoiceInputReview.Props) (nav : Navigator)
    (w : VoiceInputReview.World) (i : nat) (answer : FetchResult) :
  i < List.length (VoiceInputReview.inflight w) ->
  let w' := VoiceInputReview.step p nav (VoiceInputReview.FetchSettled i answer) w in
  VoiceInputReview.state w' = VoiceInputReview.idle
  \/ VoiceInputReview.state w' = VoiceInputReview.review.
Proof.
  intros Hi w'. subst w'.
  destruct (nth_error_in_range _ _ Hi) as [req Hreq].
  rewrite review_step_frame. cbn [VoiceInputReview.handle]. rewrite Hreq.
  unfold VoiceInputReview.submitRecording_settled, VoiceInputReview.submit_refused,
    VoiceInputReview.submit_failed, VoiceInputReview.resetRecording.
  destruct w, req as [fm [url |]]; cbn; repeat break_match; cbn; auto.
Qed.

Lemma enhanced_settled_state (p : VoiceInputEnhanced.Props) (nav : Navigator)
    (w : VoiceInputEnhanced.World) (i : nat) (answer : FetchResult) :
  i < List.length (VoiceInputEnhanced.inflight w) ->
  VoiceInputEnhanced.state
    (VoiceInputEnhanced.step p nav (VoiceInputEnhanced.FetchSettled i answer) w)
  = VoiceInputEnhanced.idle.
Proof.
  intro Hi.
  destruct (nth_error_in_range _ _ Hi) as [req Hreq].
  cbn [VoiceInputEnhanced.step]. rewrite Hreq.
  unfold VoiceInputEnhanced.submitRecording_settled, VoiceInputEnhanced.submit_refused,
    VoiceInputEnhanced.submit_failed.
  destruct w; cbn; repeat break_match; reflexivity.
Qed.

End EmptyCapture.

(** C6, as stated, fails when the recorder has gathered data by the time
    it is stopped: [stop()] makes the browser deliver that data in a last
    [dataavailable] event before the [stop] event.  Here the stop button
    is clicked before any data event has fired, the last data event brings
    two bytes, and the blob assembled by the [stop] handler has size two. *)
Lemma C6_counterexample :
  option_map
    (fun w => (VoiceInputReview.audioChunksRef w,
               option_map Web.size (VoiceInputReview.audioBlobRef w)))
    (VoiceInputReview.run Samples.review_props Samples.plain_browser
       [VoiceInputReview.ClickRecord;
        VoiceInputReview.UserMediaSettled Browser.Granted;
        VoiceInputReview.ClickStop;
        VoiceInputReview.DataAvailable 0 Samples.chunk;
        VoiceInputReview.RecorderStop 0]
       VoiceInputReview.init)
  = Some ([Samples.chunk], Some 2)
  /\ option_map
       (fun w => (VoiceInputEnhanced.audioChunksRef w,
                  option_map Web.size (VoiceInputEnhanced.audioBlobRef w)))
       (VoiceInputEnhanced.run Samples.enhanced_props Samples.plain_browser
          [VoiceInputEnhanced.ClickRecord;
           VoiceInputEnhanced.UserMediaSettled Browser.Granted;
           VoiceInputEnhanced.ClickFinish;
           VoiceInputEnhanced.DataAvailable 0 Samples.chunk;
           VoiceInputEnhanced.RecorderStop 0]
          VoiceInputEnhanced.init)
     = Some ([Samples.chunk], Some 2).
Proof. split; vm_compute; reflexivity. Qed.

(** C6, amended.  In either variant, when the capture is stopped before
    any data event has fired, and the data events that fire from then on
    carry no bytes, the recorder's [stop] handler finds the chunk buffer
    empty and assembles a blob of size zero.  The submission that follows
    (by "use this" in the review variant, at once in the other) carries
    that empty blob, and however its request settles, the handler returns
    and leaves the session in [idle] or [review]. *)
Theorem C6_stop_before_any_data
    (pr : VoiceInputReview.Props) (pe : VoiceInputEnhanced.Props) (nav : Browser.Navigator)
    (wr : VoiceInputReview.World) (we : VoiceInputEnhanced.World)
    (flush : list Web.Blob) (answer : Web.FetchResult) :
  Forall (fun d => Web.size d = 0) flush ->
  let rid := List.length (Browser.recorders (VoiceInputReview.env wr)) in
  let r1 := VoiceInputReview.step pr nav VoiceInputReview.ClickStop
              (VoiceInputReview.step pr nav
                 (VoiceInputReview.UserMediaSettled Browser.Granted) wr) in
  let r2 := fold_left
              (fun w d => VoiceInputReview.step pr nav (VoiceInputReview.DataAvailable rid d) w)
              flush r1 in
  let r3 := VoiceInputReview.step pr nav (VoiceInputReview.RecorderStop rid) r2 in
  let r4 := VoiceInputReview.step pr nav VoiceInputReview.ClickUseThis r3 in
  let r5 := VoiceInputReview.step pr nav
              (VoiceInputReview.FetchSettled
                 (List.length (VoiceInputReview.inflight wr)) answer) r4 in
  let rid' := List.length (Browser.recorders (VoiceInputEnhanced.env we)) in
  let e1 := VoiceInputEnhanced.step pe nav VoiceInputEnhanced.ClickFinish
              (VoiceInputEnhanced.step pe nav
                 (VoiceInputEnhanced.UserMediaSettled Browser.Granted) we) in
  let e2 := fold_left
              (fun w d =>
                 VoiceInputEnhanced.step pe nav (VoiceInputEnhanced.DataAvailable rid' d) w)
              flush e1 in
  let e3 := VoiceInputEnhanced.step pe nav (VoiceInputEnhanced.RecorderStop rid') e2 in
  let e4 := VoiceInputEnhanced.step pe nav
              (VoiceInputEnhanced.FetchSettled
                 (List.length (VoiceInputEnhanced.inflight we)) answer) e3 in
  (VoiceInputReview.audioChunksRef r3 = []
   /\ (exists b : Web.Blob,
         VoiceInputReview.audioBlobRef r3 = Some b
         /\ Web.size b = 0
         /\ VoiceInputReview.inflight r4
            = VoiceInputReview.inflight wr
                ++ [{| VoiceInputReview.form :=
                         [("audio", Web.FFile b "recording.webm");
                          ("language",
                           Web.FString
                             (VoiceInputReview.tag (VoiceInputReview.language pr)))];
                       VoiceInputReview.closure_audioUrl :=
                         VoiceInputReview.audioUrl r3 |}])
   /\ VoiceInputReview.state r3 = VoiceInputReview.review
   /\ (VoiceInputReview.state r5 = VoiceInputReview.idle
       \/ VoiceInputReview.state r5 = VoiceInputReview.review))
  /\ (VoiceInputEnhanced.audioChunksRef e3 = []
      /\ (exists b : Web.Blob,
            VoiceInputEnhanced.audioBlobRef e3 = Some b
            /\ Web.size b = 0
            /\ VoiceInputEnhanced.inflight e3
               = VoiceInputEnhanced.inflight we
                   ++ [{| VoiceInputEnhanced.form :=
                            [("audio", Web.FFile b "recording.webm");
                             ("language",
                              Web.FString
                                (VoiceInputEnhanced.tag (VoiceInputEnhanced.language pe)))] |}])
      /\ VoiceInputEnhanced.state e3 = VoiceInputEnhanced.processing
      /\ VoiceInputEnhanced.state e4 = VoiceInputEnhanced.idle).
Proof.
  intros Hflush rid r1 r2 r3 r4 r5 rid' e1 e2 e3 e4.
  subst r5 r4 r3 r2 r1 rid e4 e3 e2 e1 rid'.
  rewrite review_empty_flush by assumption.
  rewrite enhanced_empty_flush by assumption.
  split.
  - destruct (review_capture_without_data pr nav wr) as [Hc [Hb [Hs Hf]]].
    set (r3 := VoiceInputReview.step pr nav (VoiceInputReview.RecorderStop _) _) in *.
    pose proof (review_submit_with_blob pr nav r3 _ Hb) as Hsub.
    split; [exact Hc |]. split; [| split; [exact Hs |]].
    + eexists. split; [exact Hb |]. split; [reflexivity |].
      rewrite Hsub, Hf. reflexivity.
    + apply review_settled_state.
      rewrite Hsub, Hf, length_app. simpl. lia.
  - destruct (enhanced_capture_without_data pe nav we) as [Hc [Hb [Hs Hf]]].
    set (e3 := VoiceInputEnhanced.step pe nav (VoiceInputEnhanced.RecorderStop _) _) in *.
    split; [exact Hc |]. split; [| split; [exact Hs |]].
    + eexists. split; [exact Hb |]. split; [reflexivity | exact Hf].
    + apply enhanced_settled_state.
      rewrite Hf, length_app. simpl. lia.
Qed.

Lemma C6_stop_before_any_data_witness :
  VoiceInputReview.audioChunksRef
    (VoiceInputReview.step Samples.review_props Samples.plain_browser
       (VoiceInputReview.RecorderStop 0)
       (fold_left
          (fun w d =>
             VoiceInputReview.step Samples.review_props Samples.plain_browser
               (VoiceInputReview.DataAvailable 0 d) w)
          [Samples.empty_chunk]
          (VoiceInputReview.step Samples.review_props Samples.plain_browser
             VoiceInputReview.ClickStop
             (VoiceInputReview.step Samples.review_props Samples.plain_browser
                (VoiceInputReview.UserMediaSettled Browser.Granted)
                VoiceInputReview.init))))
  = [].
Proof.
  destruct (C6_stop_before_any_data Samples.review_props Samples.enhanced_props
              Samples.plain_browser VoiceInputReview.init VoiceInputEnhanced.init
              [Samples.empty_chunk] (Web.Rejected "TypeError: Failed to fetch"))
    as [[Hc _] _].
  - constructor; [reflexivity | constructor].
  - exact Hc.
Defined.

(** * Further properties

    Properties of the same code beyond the listed statements: the time
    display, the order of chunks, what a capture takes and gives back,
    pause and resume, unmounting, the two proxy routes as a whole, and the
    authentication context with its token lookup. *)

(** ** The elapsed-time display *)

Section Display.

Lemma to_uint_not_nil (n : nat) : Nat.to_uint n <> Decimal.Nil.
Proof.
  intro H. pose proof (DecimalNat.Unsigned.of_to n) as E. rewrite H in E.
  simpl in E. subst n. discriminate H.
Qed.

Lemma parse_toString (n : nat) : Notions.parse_decimal (JS.toString n) = n.
Proof.
  unfold Notions.parse_decimal, JS.toString.
  rewrite (NilZero.usu _ (to_uint_not_nil n)).
  apply DecimalNat.Unsigned.of_to.
Qed.

Lemma toString_inj (a b : nat) : JS.toString a = JS.toString b -> a = b.
Proof.
  intro H. rewrite <- (parse_toString a), <- (parse_toString b), H. reflexivity.
Qed.

(** Below sixty the seconds field is two characters that read back as
    the number. *)
Lemma seconds_field (n : nat) :
  n < 60 ->
  String.length (JS.padStart 2 "0" (JS.toString n)) = 2
  /\ Notions.parse_decimal (JS.padStart 2 "0" (JS.toString n)) = n.
Proof.
  intro H.
  do 60 (destruct n as [| n]; [split; reflexivity |]).
  lia.
Qed.

Lemma append_same_length (a b x y : string) :
  String.length a = String.length b ->
  (a ++ x = b ++ y)%string -> a = b /\ x = y.
Proof.
  revert b. induction a as [| c a IH]; intros [| d b] Hlen H; simpl in *;
    try discriminate.
  - split; [reflexivity | exact H].
  - injection H as -> H. injection Hlen as Hlen.
    destruct (IH b Hlen H) as [-> ->]. split; reflexivity.
Qed.

Lemma length_append (a b : string) :
  String.length (a ++ b)%string = String.length a + String.length b.
Proof. induction a as [| c a IH]; simpl; [reflexivity | now rewrite IH]. Qed.

End Display.

(** X1.  [formatTime] never shows two different times alike: equal
    texts come from equal numbers of seconds (the two variants share the
    function). *)
Theorem X1_formatTime_injective (a b : nat) :
  VoiceInputReview.formatTime a = VoiceInputReview.formatTime b
  \/ VoiceInputEnhanced.formatTime a = VoiceInputEnhanced.formatTime b ->
  a = b.
Proof.
  assert (Hlen : forall n, String.length (VoiceInputReview.formatTime n)
                           = String.length (JS.toString (n / 60)) + 3).
  { intro n. unfold VoiceInputReview.formatTime. cbv zeta.
    rewrite !length_append.
    destruct (seconds_field (n mod 60)) as [-> _];
      [apply Nat.mod_upper_bound; discriminate | reflexivity]. }
  intro H.
  assert (H' : VoiceInputReview.formatTime a = VoiceInputReview.formatTime b)
    by (destruct H as [H | H]; exact H).
  clear H.
  pose proof (f_equal String.length H') as HL. rewrite !Hlen in HL.
  unfold VoiceInputReview.formatTime in H'. cbv zeta in H'.
  apply append_same_length in H'; [| lia].
  destruct H' as [Hm Hs]. apply toString_inj in Hm.
  apply append_same_length in Hs; [| reflexivity].
  destruct Hs as [_ Hs].
  assert (Ha : a mod 60 < 60) by (apply Nat.mod_upper_bound; discriminate).
  assert (Hb : b mod 60 < 60) by (apply Nat.mod_upper_bound; discriminate).
  destruct (seconds_field _ Ha) as [_ Pa].
  destruct (seconds_field _ Hb) as [_ Pb].
  rewrite Hs in Pa. rewrite Pa in Pb.
  rewrite (Nat.div_mod_eq a 60), (Nat.div_mod_eq b 60). lia.
Qed.

Lemma X1_formatTime_injective_witness : 725 = 725.
Proof.
  apply (X1_formatTime_injective 725 725). left. reflexivity.
Defined.


(** ** A capture from start to stop *)

Section Capture.
Import Web Browser.

Lemma not_in_without (x : nat) (l : list nat) : ~ In x (without x l).
Proof.
  unfold without. intro H. apply filter_In in H. destruct H as [_ H].
  rewrite Nat.eqb_refl in H. discriminate.
Qed.

Lemma in_without (x y : nat) (l : list nat) :
  In y (without x l) <-> In y l /\ y <> x.
Proof.
  unfold without. rewrite filter_In. split; intros [H1 H2]; split; try assumption.
  - intro E. subst y. rewrite Nat.eqb_refl in H2. discriminate.
  - apply Bool.negb_true_iff. apply Nat.eqb_neq. exact H2.
Qed.

Lemma nth_error_update_same {A : Type} (f : A -> A) (l : list A) (i : nat) (x : A) :
  nth_error l i = Some x -> nth_error (update i f l) i = Some (f x).
Proof.
  revert i. induction l as [| y l IH]; intros [| i] H; simpl in *; try discriminate.
  - injection H as ->. reflexivity.
  - apply IH. exact H.
Qed.

Lemma nth_error_update_none {A : Type} (f : A -> A) (l : list A) (i : nat) :
  nth_error l i = None -> update i f l = l.
Proof.
  revert i. induction l as [| y l IH]; intros [| i] H; simpl in *;
    try discriminate; try reflexivity.
  rewrite (IH i H). reflexivity.
Qed.


Lemma review_data_events (p : VoiceInputReview.Props) (nav : Navigator) (rid : nat)
    (ds : list Blob) (w : VoiceInputReview.World) :
  recorder rid (VoiceInputReview.env w) <> None ->
  fold_left (fun w d => VoiceInputReview.step p nav (VoiceInputReview.DataAvailable rid d) w)
    ds w
  = VoiceInputReview.set_audioChunksRef
      (VoiceInputReview.audioChunksRef w ++ filter (fun d => (0 <? size d)%nat) ds) w.
Proof.
  revert w. induction ds as [| d ds IH]; intros w Hr; cbn [fold_left filter].
  - rewrite app_nil_r. destruct w; reflexivity.
  - assert (E : VoiceInputReview.step p nav (VoiceInputReview.DataAvailable rid d) w
                = VoiceInputReview.ondataavailable d w).
    { unfold VoiceInputReview.step. cbn [VoiceInputReview.handle].
      destruct (recorder rid (VoiceInputReview.env w)); [| congruence].
      unfold VoiceInputReview.ondataavailable.
      destruct (0 <? size d)%nat; destruct w; cbn;
        rewrite option_nat_eqb_refl, Bool.andb_false_r; reflexivity. }
    rewrite E, IH.
    + unfold VoiceInputReview.ondataavailable.
      destruct (0 <? size d)%nat; destruct w; cbn; [rewrite <- app_assoc |]; reflexivity.
    + unfold VoiceInputReview.ondataavailable.
      destruct (0 <? size d)%nat; destruct w; exact Hr.
Qed.

Lemma enhanced_data_events (p : VoiceInputEnhanced.Props) (nav : Navigator) (rid : nat)
    (ds : list Blob) (w : VoiceInputEnhanced.World) :
  recorder rid (VoiceInputEnhanced.env w) <> None ->
  fold_left
    (fun w d => VoiceInputEnhanced.step p nav (VoiceInputEnhanced.DataAvailable rid d) w)
    ds w
  = VoiceInputEnhanced.set_audioChunksRef
      (VoiceInputEnhanced.audioChunksRef w ++ filter (fun d => (0 <? size d)%nat) ds) w.
Proof.
  revert w. induction ds as [| d ds IH]; intros w Hr; cbn [fold_left filter].
  - rewrite app_nil_r. destruct w; reflexivity.
  - assert (E : VoiceInputEnhanced.step p nav (VoiceInputEnhanced.DataAvailable rid d) w
                = VoiceInputEnhanced.ondataavailable d w).
    { cbn [VoiceInputEnhanced.step].
      destruct (recorder rid (VoiceInputEnhanced.env w)); [reflexivity | congruence]. }
    rewrite E, IH.
    + unfold VoiceInputEnhanced.ondataavailable.
      destruct (0 <? size d)%nat; destruct w; cbn; [rewrite <- app_assoc |]; reflexivity.
    + unfold VoiceInputEnhanced.ondataavailable.
      destruct (0 <? size d)%nat; destruct w; exact Hr.
Qed.

End Capture.

Lemma review_step_eq (p : VoiceInputReview.Props) (nav : Browser.Navigator)
    (ev : VoiceInputReview.Event) (w h : VoiceInputReview.World) :
  VoiceInputReview.handle p nav ev w = h ->
  VoiceInputReview.step p nav ev w
  = if VoiceInputReview.mounted h
       && negb (Browser.option_nat_eqb (VoiceInputReview.audioUrl w)
                  (VoiceInputReview.audioUrl h))
    then VoiceInputReview.cleanup (VoiceInputReview.audioUrl w) h
    else h.
Proof. intros <-. reflexivity. Qed.

(** Evaluate one step of the review variant on an explicit world: first
    its handler, by [tac] on the equation that defines the result, then
    the re-render. *)
Ltac review_step ev tac :=
  match goal with
  | |- context [VoiceInputReview.step ?p ?nav ev ?W] =>
      let h := fresh "h" in
      let Eh := fresh "Eh" in
      pose (h := VoiceInputReview.handle p nav ev W);
      assert (Eh : VoiceInputReview.handle p nav ev W = h) by reflexivity;
      clearbody h;
      rewrite (review_step_eq p nav ev W h Eh);
      review_red Eh; tac Eh; subst h
  end.

Ltac list_facts H :=
  rewrite ?nth_error_app_length, ?update_app_length in H; cbn [negb] in H.

Section CaptureRuns.
Import Web Browser.

Lemma review_capture (p : VoiceInputReview.Props) (nav : Navigator)
    (w : VoiceInputReview.World) (ds1 ds2 : list Blob) :
  let rid := List.length (recorders (VoiceInputReview.env w)) in
  let data w ds :=
    fold_left
      (fun w d => VoiceInputReview.step p nav (VoiceInputReview.DataAvailable rid d) w)
      ds w in
  let kept := filter (fun d => (0 <? size d)%nat) (ds1 ++ ds2) in
  let w5 := VoiceInputReview.step p nav (VoiceInputReview.RecorderStop rid)
              (data (VoiceInputReview.step p nav VoiceInputReview.ClickStop
                       (data (VoiceInputReview.step p nav
                                (VoiceInputReview.UserMediaSettled Granted) w) ds1))
                 ds2) in
  VoiceInputReview.audioChunksRef w5 = kept
  /\ VoiceInputReview.audioBlobRef w5
     = Some (new_Blob kept
               (blob_type_for (selectMimeType (isTypeSupported nav) mimeTypes)))
  /\ VoiceInputReview.state w5 = VoiceInputReview.review
  /\ VoiceInputReview.audioUrl w5 = Some (urls (VoiceInputReview.env w))
  /\ VoiceInputReview.inflight w5 = VoiceInputReview.inflight w
  /\ VoiceInputReview.transcriptions w5 = VoiceInputReview.transcriptions w
  /\ VoiceInputReview.timerRef w5 = None
  /\ ~ In (timers (VoiceInputReview.env w)) (activeTimers (VoiceInputReview.env w5))
  /\ ~ In (streams (VoiceInputReview.env w)) (liveStreams (VoiceInputReview.env w5)).
Proof.
  intros rid data kept w5. subst w5 kept data rid.
  destruct w as [st er rt au ip mr ch tm ar bl [rs sn ls tn ts un us pn] fl tr mo].
  cbn [VoiceInputReview.env recorders VoiceInputReview.inflight
       VoiceInputReview.transcriptions timers streams urls].
  review_step (VoiceInputReview.UserMediaSettled Granted)
    ltac:(fun H => list_facts H; review_red H).
  cbn [VoiceInputReview.mounted VoiceInputReview.audioUrl].
  rewrite option_nat_eqb_refl, Bool.andb_false_r.
  match goal with
  | |- context [fold_left ?f ds1 ?W] =>
      rewrite (review_data_events p nav _ ds1 W)
        by (unfold recorder; cbn [VoiceInputReview.env recorders];
            rewrite nth_error_app_length; discriminate)
  end.
  review_step VoiceInputReview.ClickStop
    ltac:(fun H => list_facts H; review_red H; list_facts H; review_red H).
  cbn [VoiceInputReview.mounted VoiceInputReview.audioUrl].
  rewrite option_nat_eqb_refl, Bool.andb_false_r.
  match goal with
  | |- context [fold_left ?f ds2 ?W] =>
      rewrite (review_data_events p nav _ ds2 W)
        by (unfold recorder; cbn [VoiceInputReview.env recorders];
            rewrite nth_error_app_length; discriminate)
  end.
  cbn [VoiceInputReview.audioChunksRef app]. rewrite <- filter_app.
  review_step (VoiceInputReview.RecorderStop (Datatypes.length rs))
    ltac:(fun H => list_facts H; review_red H; list_facts H; review_red H).
  cbn [VoiceInputReview.mounted VoiceInputReview.audioUrl].
  destruct au as [u |];
    match goal with
    | |- context [if (mo && ?c) then _ else _] => destruct (mo && c)
    end;
    match goal with
    | |- context [VoiceInputReview.cleanup ?u ?W] =>
        remember (VoiceInputReview.cleanup u W) as c eqn:Ec;
        review_red Ec; list_facts Ec; review_red Ec; subst c
    | _ => idtac
    end;
    cbn [VoiceInputReview.audioChunksRef VoiceInputReview.audioBlobRef
         VoiceInputReview.state VoiceInputReview.audioUrl VoiceInputReview.inflight
         VoiceInputReview.transcriptions VoiceInputReview.timerRef
         VoiceInputReview.env activeTimers liveStreams];
    repeat (split; [reflexivity |]);
    (split; [apply not_in_without | ]); apply not_in_without.
Qed.

End CaptureRuns.

Ltac enhanced_step ev tac :=
  match goal with
  | |- context [VoiceInputEnhanced.step ?p ?nav ev ?W] =>
      let h := fresh "h" in
      let Eh := fresh "Eh" in
      remember (VoiceInputEnhanced.step p nav ev W) as h eqn:Eh;
      enhanced_red Eh; tac Eh; subst h
  end.

Section CaptureRunsEnhanced.
Import Web Browser.

Lemma enhanced_capture (p : VoiceInputEnhanced.Props) (nav : Navigator)
    (w : VoiceInputEnhanced.World) (ds1 ds2 : list Blob) :
  let rid := List.length (recorders (VoiceInputEnhanced.env w)) in
  let data w ds :=
    fold_left
      (fun w d => VoiceInputEnhanced.step p nav (VoiceInputEnhanced.DataAvailable rid d) w)
      ds w in
  let kept := filter (fun d => (0 <? size d)%nat) (ds1 ++ ds2) in
  let blob :=
    new_Blob kept (blob_type_for (selectMimeType (isTypeSupported nav) mimeTypes)) in
  let w5 := VoiceInputEnhanced.step p nav (VoiceInputEnhanced.RecorderStop rid)
              (data (VoiceInputEnhanced.step p nav VoiceInputEnhanced.ClickFinish
                       (data (VoiceInputEnhanced.step p nav
                                (VoiceInputEnhanced.UserMediaSettled Granted) w) ds1))
                 ds2) in
  VoiceInputEnhanced.audioChunksRef w5 = kept
  /\ VoiceInputEnhanced.audioBlobRef w5 = Some blob
  /\ VoiceInputEnhanced.state w5 = VoiceInputEnhanced.processing
  /\ VoiceInputEnhanced.inflight w5
     = VoiceInputEnhanced.inflight w
         ++ [{| VoiceInputEnhanced.form :=
                  [("audio", FFile blob "recording.webm");
                   ("language",
                    FString (VoiceInputEnhanced.tag (VoiceInputEnhanced.language p)))] |}]
  /\ VoiceInputEnhanced.transcriptions w5 = VoiceInputEnhanced.transcriptions w
  /\ VoiceInputEnhanced.timerRef w5 = None
  /\ ~ In (timers (VoiceInputEnhanced.env w)) (activeTimers (VoiceInputEnhanced.env w5))
  /\ ~ In (streams (VoiceInputEnhanced.env w)) (liveStreams (VoiceInputEnhanced.env w5)).
Proof.
  intros rid data kept blob w5. subst w5 blob kept data rid.
  destruct w as [st er rt mr ch tm bl [rs sn ls tn ts un us pn] fl tr mo].
  cbn [VoiceInputEnhanced.env recorders VoiceInputEnhanced.inflight
       VoiceInputEnhanced.transcriptions timers streams].
  enhanced_step (VoiceInputEnhanced.UserMediaSettled Granted)
    ltac:(fun H => list_facts H; enhanced_red H).
  match goal with
  | |- context [fold_left ?f ds1 ?W] =>
      rewrite (enhanced_data_events p nav _ ds1 W)
        by (unfold recorder; cbn [VoiceInputEnhanced.env recorders];
            rewrite nth_error_app_length; discriminate)
  end.
  enhanced_step VoiceInputEnhanced.ClickFinish
    ltac:(fun H => list_facts H; enhanced_red H; list_facts H; enhanced_red H).
  match goal with
  | |- context [fold_left ?f ds2 ?W] =>
      rewrite (enhanced_data_events p nav _ ds2 W)
        by (unfold recorder; cbn [VoiceInputEnhanced.env recorders];
            rewrite nth_error_app_length; discriminate)
  end.
  cbn [VoiceInputEnhanced.audioChunksRef app]. rewrite <- filter_app.
  enhanced_step (VoiceInputEnhanced.RecorderStop (Datatypes.length rs))
    ltac:(fun H => list_facts H; enhanced_red H; list_facts H; enhanced_red H).
  cbn [VoiceInputEnhanced.audioChunksRef VoiceInputEnhanced.audioBlobRef
       VoiceInputEnhanced.state VoiceInputEnhanced.inflight
       VoiceInputEnhanced.transcriptions VoiceInputEnhanced.timerRef
       VoiceInputEnhanced.env activeTimers liveStreams].
  repeat (split; [reflexivity |]).
  split; apply not_in_without.
Qed.

End CaptureRunsEnhanced.


Section Started.
Import Web Browser.

Lemma review_started (p : VoiceInputReview.Props) (nav : Navigator)
    (w : VoiceInputReview.World) :
  let w1 := VoiceInputReview.step p nav (VoiceInputReview.UserMediaSettled Granted) w in
  VoiceInputReview.timerRef w1 = Some (timers (VoiceInputReview.env w))
  /\ activeTimers (VoiceInputReview.env w1)
     = activeTimers (VoiceInputReview.env w) ++ [timers (VoiceInputReview.env w)]
  /\ liveStreams (VoiceInputReview.env w1)
     = liveStreams (VoiceInputReview.env w) ++ [streams (VoiceInputReview.env w)]
  /\ VoiceInputReview.recordingTime w1 = 0
  /\ VoiceInputReview.audioChunksRef w1 = [].
Proof.
  intro w1. subst w1.
  destruct w as [st er rt au ip mr ch tm ar bl [rs sn ls tn ts un us pn] fl tr mo].
  review_step (VoiceInputReview.UserMediaSettled Granted)
    ltac:(fun H => list_facts H; review_red H).
  cbn [VoiceInputReview.mounted VoiceInputReview.audioUrl].
  rewrite option_nat_eqb_refl, Bool.andb_false_r.
  repeat split.
Qed.

Lemma enhanced_started (p : VoiceInputEnhanced.Props) (nav : Navigator)
    (w : VoiceInputEnhanced.World) :
  let w1 := VoiceInputEnhanced.step p nav (VoiceInputEnhanced.UserMediaSettled Granted) w in
  VoiceInputEnhanced.timerRef w1 = Some (timers (VoiceInputEnhanced.env w))
  /\ activeTimers (VoiceInputEnhanced.env w1)
     = activeTimers (VoiceInputEnhanced.env w) ++ [timers (VoiceInputEnhanced.env w)]
  /\ liveStreams (VoiceInputEnhanced.env w1)
     = liveStreams (VoiceInputEnhanced.env w) ++ [streams (VoiceInputEnhanced.env w)]
  /\ VoiceInputEnhanced.recordingTime w1 = 0
  /\ VoiceInputEnhanced.audioChunksRef w1 = [].
Proof.
  intro w1. subst w1.
  destruct w as [st er rt mr ch tm bl [rs sn ls tn ts un us pn] fl tr mo].
  enhanced_step (VoiceInputEnhanced.UserMediaSettled Granted)
    ltac:(fun H => list_facts H; enhanced_red H).
  repeat split.
Qed.

End Started.

(** X4.  The stop path gives back what the capture took.  In either
    variant the start of a capture sets one timer going and opens one
    stream; after the stop request and the recorder's [stop] event that
    timer is no longer active, that stream is no longer live, and
    [timerRef] is null. *)
Theorem X4_stop_releases_timer_and_stream
    (pr : VoiceInputReview.Props) (pe : VoiceInputEnhanced.Props) (nav : Browser.Navigator)
    (wr : VoiceInputReview.World) (we : VoiceInputEnhanced.World)
    (ds1 ds2 : list Web.Blob) :
  let rid := List.length (Browser.recorders (VoiceInputReview.env wr)) in
  let rdata w ds :=
    fold_left
      (fun w d => VoiceInputReview.step pr nav (VoiceInputReview.DataAvailable rid d) w)
      ds w in
  let r1 := VoiceInputReview.step pr nav
              (VoiceInputReview.UserMediaSettled Browser.Granted) wr in
  let r5 := VoiceInputReview.step pr nav (VoiceInputReview.RecorderStop rid)
              (rdata (VoiceInputReview.step pr nav VoiceInputReview.ClickStop (rdata r1 ds1))
                 ds2) in
  let rid' := List.length (Browser.recorders (VoiceInputEnhanced.env we)) in
  let edata w ds :=
    fold_left
      (fun w d => VoiceInputEnhanced.step pe nav (VoiceInputEnhanced.DataAvailable rid' d) w)
      ds w in
  let e1 := VoiceInputEnhanced.step pe nav
              (VoiceInputEnhanced.UserMediaSettled Browser.Granted) we in
  let e5 := VoiceInputEnhanced.step pe nav (VoiceInputEnhanced.RecorderStop rid')
              (edata (VoiceInputEnhanced.step pe nav VoiceInputEnhanced.ClickFinish
                        (edata e1 ds1))
                 ds2) in
  (exists t s : nat,
      VoiceInputReview.timerRef r1 = Some t
      /\ In t (Browser.activeTimers (VoiceInputReview.env r1))
      /\ In s (Browser.liveStreams (VoiceInputReview.env r1))
      /\ VoiceInputReview.timerRef r5 = None
      /\ ~ In t (Browser.activeTimers (VoiceInputReview.env r5))
      /\ ~ In s (Browser.liveStreams (VoiceInputReview.env r5)))
  /\ (exists t s : nat,
         VoiceInputEnhanced.timerRef e1 = Some t
         /\ In t (Browser.activeTimers (VoiceInputEnhanced.env e1))
         /\ In s (Browser.liveStreams (VoiceInputEnhanced.env e1))
         /\ VoiceInputEnhanced.timerRef e5 = None
         /\ ~ In t (Browser.activeTimers (VoiceInputEnhanced.env e5))
         /\ ~ In s (Browser.liveStreams (VoiceInputEnhanced.env e5))).
Proof.
  intros rid rdata r1 r5 rid' edata e1 e5.
  destruct (review_capture pr nav wr ds1 ds2) as [_ [_ [_ [_ [_ [_ [Ht [Ha Hl]]]]]]]].
  destruct (enhanced_capture pe nav we ds1 ds2) as [_ [_ [_ [_ [_ [Ht' [Ha' Hl']]]]]]].
  destruct (review_started pr nav wr) as [Hr [Hra [Hrl _]]].
  destruct (enhanced_started pe nav we) as [He [Hea [Hel _]]].
  split.
  - exists (Browser.timers (VoiceInputReview.env wr)),
      (Browser.streams (VoiceInputReview.env wr)).
    subst r1. rewrite Hra, Hrl.
    repeat split; try assumption; apply in_or_app; right; left; reflexivity.
  - exists (Browser.timers (VoiceInputEnhanced.env we)),
      (Browser.streams (VoiceInputEnhanced.env we)).
    subst e1. rewrite Hea, Hel.
    repeat split; try assumption; apply in_or_app; right; left; reflexivity.
Qed.

(** ** Pause and resume *)

(** X5.  Pausing then resuming keeps the elapsed time.  In the variant
    with pause, when the current recorder is recording and [timerRef]
    holds timer [t]: pausing moves the session to [paused], stops [t] and
    leaves the elapsed time as it is; resuming moves it back to
    [recording] with the same elapsed time and the same chunks, the
    recorder recording again, and one new timer in place of [t]. *)
Theorem X5_pause_then_resume
    (p : VoiceInputEnhanced.Props) (nav : Browser.Navigator)
    (w : VoiceInputEnhanced.World) (rid t : nat) (r : Browser.MediaRecorder) :
  VoiceInputEnhanced.mediaRecorderRef w = Some rid ->
  Browser.recorder rid (VoiceInputEnhanced.env w) = Some r ->
  Browser.mr_state r = Browser.mr_recording ->
  VoiceInputEnhanced.timerRef w = Some t ->
  let w1 := VoiceInputEnhanced.step p nav VoiceInputEnhanced.ClickPause w in
  let w2 := VoiceInputEnhanced.step p nav VoiceInputEnhanced.ClickResume w1 in
  (VoiceInputEnhanced.state w1 = VoiceInputEnhanced.paused
   /\ VoiceInputEnhanced.timerRef w1 = None
   /\ ~ In t (Browser.activeTimers (VoiceInputEnhanced.env w1))
   /\ VoiceInputEnhanced.recordingTime w1 = VoiceInputEnhanced.recordingTime w
   /\ option_map Browser.mr_state (Browser.recorder rid (VoiceInputEnhanced.env w1))
      = Some Browser.mr_paused)
  /\ (VoiceInputEnhanced.state w2 = VoiceInputEnhanced.recording
      /\ VoiceInputEnhanced.recordingTime w2 = VoiceInputEnhanced.recordingTime w
      /\ VoiceInputEnhanced.audioChunksRef w2 = VoiceInputEnhanced.audioChunksRef w
      /\ VoiceInputEnhanced.timerRef w2
         = Some (Browser.timers (VoiceInputEnhanced.env w))
      /\ Browser.activeTimers (VoiceInputEnhanced.env w2)
         = Browser.without t (Browser.activeTimers (VoiceInputEnhanced.env w))
             ++ [Browser.timers (VoiceInputEnhanced.env w)]
      /\ option_map Browser.mr_state (Browser.recorder rid (VoiceInputEnhanced.env w2))
         = Some Browser.mr_recording).
Proof.
  intros Hm Hr Hs Ht w1 w2. subst w2 w1.
  destruct w as [st er rt mr ch tm bl [rs sn ls tn ts un us pn] fl tr mo].
  destruct r as [stream mime opts rstate stopping].
  cbn in Hm, Hr, Hs, Ht. subst mr tm rstate. unfold Browser.recorder in Hr. cbn in Hr.
  pose proof (nth_error_update_same
                (fun r => Browser.set_recorder Browser.mr_paused (Browser.mr_stopping r) r)
                rs rid _ Hr) as Hp.
  pose proof (nth_error_update_same
                (fun r => Browser.set_recorder Browser.mr_recording (Browser.mr_stopping r) r)
                _ rid _ Hp) as Hq.
  browser_red Hp. browser_red Hq.
  enhanced_step VoiceInputEnhanced.ClickPause
    ltac:(fun H => rewrite ?Hr in H; enhanced_red H).
  unfold Browser.recorder.
  cbn [VoiceInputEnhanced.state VoiceInputEnhanced.timerRef VoiceInputEnhanced.env
       VoiceInputEnhanced.recordingTime Browser.activeTimers Browser.recorders].
  split.
  - rewrite Hp. repeat split. apply not_in_without.
  - enhanced_step VoiceInputEnhanced.ClickResume
      ltac:(fun H => rewrite ?Hp in H; enhanced_red H).
    cbn [VoiceInputEnhanced.state VoiceInputEnhanced.timerRef VoiceInputEnhanced.env
         VoiceInputEnhanced.recordingTime VoiceInputEnhanced.audioChunksRef
         Browser.activeTimers Browser.recorders Browser.timers].
    rewrite Hq. repeat split.
Qed.

Lemma X5_pause_then_resume_witness :
  VoiceInputEnhanced.recordingTime
    (VoiceInputEnhanced.step Samples.enhanced_props Samples.plain_browser
       VoiceInputEnhanced.ClickResume
       (VoiceInputEnhanced.step Samples.enhanced_props Samples.plain_browser
          VoiceInputEnhanced.ClickPause MoreSamples.enhanced_recording))
  = VoiceInputEnhanced.recordingTime MoreSamples.enhanced_recording.
Proof.
  destruct (X5_pause_then_resume Samples.enhanced_props Samples.plain_browser
              MoreSamples.enhanced_recording 0 0 MoreSamples.first_recorder
              eq_refl eq_refl eq_refl eq_refl) as [_ [_ [H _]]].
  exact H.
Defined.

(** ** Asking twice *)

Section Twice.
Import Web Browser.

Lemma review_stop_twice (w : VoiceInputReview.World) :
  VoiceInputReview.stopRecording (VoiceInputReview.stopRecording w)
  = VoiceInputReview.stopRecording w.
Proof.
  destruct w as [st er rt au ip mr ch tm ar bl [rs sn ls tn ts un us pn] fl tr mo].
  match goal with
  | |- _ = ?inner => remember inner as a eqn:Ea
  end. review_red Ea.
  destruct tm as [t |], mr as [rid |]; review_red Ea;
    try (destruct (nth_error rs rid) as [[s m o rstate stp] |] eqn:Hr; review_red Ea;
         try (pose proof (nth_error_update_same (set_recorder mr_inactive true)
                            rs rid _ Hr) as Hu; browser_red Hu);
         try destruct rstate; cbn [negb] in Ea; review_red Ea);
    subst a;
    remember (VoiceInputReview.stopRecording _) as b eqn:Eb; review_red Eb;
    rewrite ?Hu, ?Hr in Eb; review_red Eb; cbn [negb] in Eb; review_red Eb;
    subst b; reflexivity.
Qed.

Lemma enhanced_finish_twice (w : VoiceInputEnhanced.World) :
  VoiceInputEnhanced.finishRecording (VoiceInputEnhanced.finishRecording w)
  = VoiceInputEnhanced.finishRecording w.
Proof.
  destruct w as [st er rt mr ch tm bl [rs sn ls tn ts un us pn] fl tr mo].
  match goal with
  | |- _ = ?inner => remember inner as a eqn:Ea
  end. enhanced_red Ea.
  destruct tm as [t |], mr as [rid |]; enhanced_red Ea;
    try (destruct (nth_error rs rid) as [[s m o rstate stp] |] eqn:Hr; enhanced_red Ea;
         try (pose proof (nth_error_update_same (set_recorder mr_inactive true)
                            rs rid _ Hr) as Hu; browser_red Hu);
         try destruct rstate; cbn [negb] in Ea; enhanced_red Ea);
    subst a;
    remember (VoiceInputEnhanced.finishRecording _) as b eqn:Eb; enhanced_red Eb;
    rewrite ?Hu, ?Hr in Eb; enhanced_red Eb; cbn [negb] in Eb; enhanced_red Eb;
    subst b; reflexivity.
Qed.

Lemma enhanced_pause_twice (w : VoiceInputEnhanced.World) :
  VoiceInputEnhanced.pauseRecording (VoiceInputEnhanced.pauseRecording w)
  = VoiceInputEnhanced.pauseRecording w.
Proof.
  destruct w as [st er rt mr ch tm bl [rs sn ls tn ts un us pn] fl tr mo].
  match goal with
  | |- _ = ?inner => remember inner as a eqn:Ea
  end. enhanced_red Ea.
  destruct mr as [rid |]; enhanced_red Ea;
    try (destruct (nth_error rs rid) as [[s m o rstate stp] |] eqn:Hr; enhanced_red Ea;
         try (pose proof (nth_error_update_same
                            (fun r => set_recorder mr_paused (mr_stopping r) r)
                            rs rid _ Hr) as Hu; browser_red Hu);
         try destruct rstate; enhanced_red Ea; try destruct tm as [t |];
         enhanced_red Ea);
    subst a;
    remember (VoiceInputEnhanced.pauseRecording _) as b eqn:Eb; enhanced_red Eb;
    rewrite ?Hu, ?Hr in Eb; enhanced_red Eb;
    subst b; reflexivity.
Qed.

Lemma enhanced_resume_twice (w : VoiceInputEnhanced.World) :
  VoiceInputEnhanced.resumeRecording (VoiceInputEnhanced.resumeRecording w)
  = VoiceInputEnhanced.resumeRecording w.
Proof.
  destruct w as [st er rt mr ch tm bl [rs sn ls tn ts un us pn] fl tr mo].
  match goal with
  | |- _ = ?inner => remember inner as a eqn:Ea
  end. enhanced_red Ea.
  destruct mr as [rid |]; enhanced_red Ea;
    try (destruct (nth_error rs rid) as [[s m o rstate stp] |] eqn:Hr; enhanced_red Ea;
         try (pose proof (nth_error_update_same
                            (fun r => set_recorder mr_recording (mr_stopping r) r)
                            rs rid _ Hr) as Hu; browser_red Hu);
         try destruct rstate; enhanced_red Ea);
    subst a;
    remember (VoiceInputEnhanced.resumeRecording _) as b eqn:Eb; enhanced_red Eb;
    rewrite ?Hu, ?Hr in Eb; enhanced_red Eb;
    subst b; reflexivity.
Qed.

End Twice.

(** X6.  Asking twice is asking once: a second call of [stopRecording],
    [finishRecording], [pauseRecording] or [resumeRecording] right after
    the first changes nothing, in every state of the session. *)
Theorem X6_second_request_is_a_no_op
    (wr : VoiceInputReview.World) (we : VoiceInputEnhanced.World) :
  VoiceInputReview.stopRecording (VoiceInputReview.stopRecording wr)
  = VoiceInputReview.stopRecording wr
  /\ VoiceInputEnhanced.finishRecording (VoiceInputEnhanced.finishRecording we)
     = VoiceInputEnhanced.finishRecording we
  /\ VoiceInputEnhanced.pauseRecording (VoiceInputEnhanced.pauseRecording we)
     = VoiceInputEnhanced.pauseRecording we
  /\ VoiceInputEnhanced.resumeRecording (VoiceInputEnhanced.resumeRecording we)
     = VoiceInputEnhanced.resumeRecording we.
Proof.
  split; [apply review_stop_twice |].
  split; [apply enhanced_finish_twice |].
  split; [apply enhanced_pause_twice | apply enhanced_resume_twice].
Qed.

(** ** Unmounting in the middle of a capture *)

Section UnmountFacts.
Import Web Browser.

Lemma existsb_eqb_false (t : nat) (l : list nat) :
  ~ In t l -> existsb (Nat.eqb t) l = false.
Proof.
  intro H. destruct (existsb (Nat.eqb t) l) eqn:E; [| reflexivity].
  apply existsb_exists in E. destruct E as [x [Hx Ex]].
  apply Nat.eqb_eq in Ex. subst x. contradiction.
Qed.

Lemma review_unmount (p : VoiceInputReview.Props) (nav : Navigator)
    (w : VoiceInputReview.World) (rid : nat) (r : MediaRecorder) :
  VoiceInputReview.mediaRecorderRef w = Some rid ->
  recorder rid (VoiceInputReview.env w) = Some r ->
  is_inactive (mr_state r) = false ->
  let w1 := VoiceInputReview.step p nav VoiceInputReview.Unmount w in
  let w2 := VoiceInputReview.step p nav (VoiceInputReview.RecorderStop rid) w1 in
  VoiceInputReview.mounted w1 = false
  /\ (forall t, VoiceInputReview.timerRef w = Some t ->
                ~ In t (activeTimers (VoiceInputReview.env w1)))
  /\ recorder rid (VoiceInputReview.env w1) = Some (set_recorder mr_inactive true r)
  /\ ~ In (mr_stream r) (liveStreams (VoiceInputReview.env w2)).
Proof.
  intros Hm Hr Hs w1 w2. subst w2 w1.
  destruct w as [st er rt au ip mr ch tm ar bl [rs sn ls tn ts un us pn] fl tr mo].
  destruct r as [stream mime opts rstate stopping].
  cbn in Hm, Hr, Hs. subst mr. unfold recorder in Hr. cbn in Hr.
  pose proof (nth_error_update_same (set_recorder mr_inactive true) rs rid _ Hr) as Hu.
  browser_red Hu.
  destruct rstate; [discriminate Hs | |];
    destruct tm as [t |], au as [u |];
    review_step VoiceInputReview.Unmount
      ltac:(fun H => rewrite ?Hr in H; review_red H; cbn [negb] in H; review_red H);
    cbn [VoiceInputReview.mounted andb];
    review_step (VoiceInputReview.RecorderStop rid)
      ltac:(fun H => rewrite ?Hu in H; review_red H);
    cbn [VoiceInputReview.mounted andb];
    unfold recorder;
    cbn [VoiceInputReview.mounted VoiceInputReview.env activeTimers liveStreams
         recorders VoiceInputReview.timerRef];
    browser_red Hu; rewrite Hu;
    repeat split; try apply not_in_without;
    try (intros t0 E; try discriminate E; injection E as <-; apply not_in_without).
Qed.

Lemma enhanced_unmount (p : VoiceInputEnhanced.Props) (nav : Navigator)
    (w : VoiceInputEnhanced.World) (rid : nat) (r : MediaRecorder) :
  VoiceInputEnhanced.mediaRecorderRef w = Some rid ->
  recorder rid (VoiceInputEnhanced.env w) = Some r ->
  is_inactive (mr_state r) = false ->
  let w1 := VoiceInputEnhanced.step p nav VoiceInputEnhanced.Unmount w in
  let w2 := VoiceInputEnhanced.step p nav (VoiceInputEnhanced.RecorderStop rid) w1 in
  let blob := new_Blob (VoiceInputEnhanced.audioChunksRef w)
                (blob_type_for (mr_mimeType r)) in
  VoiceInputEnhanced.mounted w1 = false
  /\ (forall t, VoiceInputEnhanced.timerRef w = Some t ->
                ~ In t (activeTimers (VoiceInputEnhanced.env w1)))
  /\ recorder rid (VoiceInputEnhanced.env w1) = Some (set_recorder mr_inactive true r)
  /\ ~ In (mr_stream r) (liveStreams (VoiceInputEnhanced.env w2))
  /\ VoiceInputEnhanced.inflight w2
     = VoiceInputEnhanced.inflight w
         ++ [{| VoiceInputEnhanced.form :=
                  [("audio", FFile blob "recording.webm");
                   ("language",
                    FString (VoiceInputEnhanced.tag (VoiceInputEnhanced.language p)))] |}].
Proof.
  intros Hm Hr Hs w1 w2 blob. subst blob w2 w1.
  destruct w as [st er rt mr ch tm bl [rs sn ls tn ts un us pn] fl tr mo].
  destruct r as [stream mime opts rstate stopping].
  cbn in Hm, Hr, Hs. subst mr. unfold recorder in Hr. cbn in Hr.
  pose proof (nth_error_update_same (set_recorder mr_inactive true) rs rid _ Hr) as Hu.
  browser_red Hu.
  destruct rstate; [discriminate Hs | |];
    destruct tm as [t |];
    enhanced_step VoiceInputEnhanced.Unmount
      ltac:(fun H => rewrite ?Hr in H; enhanced_red H; cbn [negb] in H; enhanced_red H);
    enhanced_step (VoiceInputEnhanced.RecorderStop rid)
      ltac:(fun H => rewrite ?Hu in H; enhanced_red H);
    unfold recorder;
    cbn [VoiceInputEnhanced.mounted VoiceInputEnhanced.env activeTimers liveStreams
         recorders VoiceInputEnhanced.timerRef VoiceInputEnhanced.inflight
         VoiceInputEnhanced.audioChunksRef];
    browser_red Hu; rewrite Hu;
    repeat split; try apply not_in_without;
    try (intros t0 E; try discriminate E; injection E as <-; apply not_in_without).
Qed.

End UnmountFacts.

(** X7.  Unmounting in the middle of a capture releases the microphone
    and the timer.  In either variant, when the current recorder is not
    inactive, the unmount cleanup stops the timer in [timerRef], so that
    it cannot tick any more, and makes the recorder inactive; once the
    recorder's [stop] event is dispatched its stream is no longer live. *)
Theorem X7_unmount_releases
    (pr : VoiceInputReview.Props) (pe : VoiceInputEnhanced.Props) (nav : Browser.Navigator)
    (wr : VoiceInputReview.World) (we : VoiceInputEnhanced.World)
    (rid rid' : nat) (r r' : Browser.MediaRecorder) :
  VoiceInputReview.mediaRecorderRef wr = Some rid ->
  Browser.recorder rid (VoiceInputReview.env wr) = Some r ->
  Browser.is_inactive (Browser.mr_state r) = false ->
  VoiceInputEnhanced.mediaRecorderRef we = Some rid' ->
  Browser.recorder rid' (VoiceInputEnhanced.env we) = Some r' ->
  Browser.is_inactive (Browser.mr_state r') = false ->
  let r1 := VoiceInputReview.step pr nav VoiceInputReview.Unmount wr in
  let r2 := VoiceInputReview.step pr nav (VoiceInputReview.RecorderStop rid) r1 in
  let e1 := VoiceInputEnhanced.step pe nav VoiceInputEnhanced.Unmount we in
  let e2 := VoiceInputEnhanced.step pe nav (VoiceInputEnhanced.RecorderStop rid') e1 in
  ((forall t, VoiceInputReview.timerRef wr = Some t ->
              ~ In t (Browser.activeTimers (VoiceInputReview.env r1))
              /\ VoiceInputReview.enabled pr r1 (VoiceInputReview.Tick t) = false)
   /\ option_map Browser.mr_state (Browser.recorder rid (VoiceInputReview.env r1))
      = Some Browser.mr_inactive
   /\ VoiceInputReview.enabled pr r1 (VoiceInputReview.RecorderStop rid) = true
   /\ ~ In (Browser.mr_stream r) (Browser.liveStreams (VoiceInputReview.env r2)))
  /\ ((forall t, VoiceInputEnhanced.timerRef we = Some t ->
                 ~ In t (Browser.activeTimers (VoiceInputEnhanced.env e1))
                 /\ VoiceInputEnhanced.enabled pe e1 (VoiceInputEnhanced.Tick t) = false)
      /\ option_map Browser.mr_state (Browser.recorder rid' (VoiceInputEnhanced.env e1))
         = Some Browser.mr_inactive
      /\ VoiceInputEnhanced.enabled pe e1 (VoiceInputEnhanced.RecorderStop rid') = true
      /\ ~ In (Browser.mr_stream r') (Browser.liveStreams (VoiceInputEnhanced.env e2))).
Proof.
  intros Hm Hr Hs Hm' Hr' Hs' r1 r2 e1 e2.
  destruct (review_unmount pr nav wr rid r Hm Hr Hs) as [_ [Ht [Hrec Hl]]].
  destruct (enhanced_unmount pe nav we rid' r' Hm' Hr' Hs') as [_ [Ht' [Hrec' [Hl' _]]]].
  split.
  - split; [| split; [| split]].
    + intros t E. split; [exact (Ht t E) |].
      cbn [VoiceInputReview.enabled]. apply existsb_eqb_false. exact (Ht t E).
    + subst r1. rewrite Hrec. reflexivity.
    + subst r1. cbn [VoiceInputReview.enabled]. rewrite Hrec. reflexivity.
    + exact Hl.
  - split; [| split; [| split]].
    + intros t E. split; [exact (Ht' t E) |].
      cbn [VoiceInputEnhanced.enabled]. apply existsb_eqb_false. exact (Ht' t E).
    + subst e1. rewrite Hrec'. reflexivity.
    + subst e1. cbn [VoiceInputEnhanced.enabled]. rewrite Hrec'. reflexivity.
    + exact Hl'.
Qed.

Lemma X7_unmount_releases_witness :
  ~ In 0 (Browser.liveStreams
            (VoiceInputReview.env
               (VoiceInputReview.step Samples.review_props Samples.plain_browser
                  (VoiceInputReview.RecorderStop 0)
                  (VoiceInputReview.step Samples.review_props Samples.plain_browser
                     VoiceInputReview.Unmount MoreSamples.review_recording))))
  /\ ~ In 0 (Browser.liveStreams
               (VoiceInputEnhanced.env
                  (VoiceInputEnhanced.step Samples.enhanced_props Samples.plain_browser
                     (VoiceInputEnhanced.RecorderStop 0)
                     (VoiceInputEnhanced.step Samples.enhanced_props Samples.plain_browser
                        VoiceInputEnhanced.Unmount MoreSamples.enhanced_recording)))).
Proof.
  destruct (X7_unmount_releases Samples.review_props Samples.enhanced_props
              Samples.plain_browser MoreSamples.review_recording
              MoreSamples.enhanced_recording 0 0 MoreSamples.first_recorder
              MoreSamples.first_recorder eq_refl eq_refl eq_refl eq_refl eq_refl eq_refl)
    as [[_ [_ [_ Hr]]] [_ [_ [_ He]]]].
  split; assumption.
Defined.

(** X8.  In the variant with automatic submission, unmounting in the
    middle of a capture still submits it: the [stop] handler of the
    recorder that the cleanup stopped assembles the chunks received so
    far and sends them, although the component is gone. *)
Theorem X8_unmount_still_submits
    (p : VoiceInputEnhanced.Props) (nav : Browser.Navigator)
    (w : VoiceInputEnhanced.World) (rid : nat) (r : Browser.MediaRecorder) :
  VoiceInputEnhanced.mediaRecorderRef w = Some rid ->
  Browser.recorder rid (VoiceInputEnhanced.env w) = Some r ->
  Browser.is_inactive (Browser.mr_state r) = false ->
  let w1 := VoiceInputEnhanced.step p nav VoiceInputEnhanced.Unmount w in
  let w2 := VoiceInputEnhanced.step p nav (VoiceInputEnhanced.RecorderStop rid) w1 in
  let blob := Web.new_Blob (VoiceInputEnhanced.audioChunksRef w)
                (Browser.blob_type_for (Browser.mr_mimeType r)) in
  VoiceInputEnhanced.mounted w1 = false
  /\ VoiceInputEnhanced.inflight w2
     = VoiceInputEnhanced.inflight w
         ++ [{| VoiceInputEnhanced.form :=
                  [("audio", Web.FFile blob "recording.webm");
                   ("language",
                    Web.FString
                      (VoiceInputEnhanced.tag (VoiceInputEnhanced.language p)))] |}].
Proof.
  intros Hm Hr Hs w1 w2 blob.
  destruct (enhanced_unmount p nav w rid r Hm Hr Hs) as [Hmo [_ [_ [_ Hf]]]].
  split; assumption.
Qed.

Lemma X8_unmount_still_submits_witness :
  List.length
    (VoiceInputEnhanced.inflight
       (VoiceInputEnhanced.step Samples.enhanced_props Samples.plain_browser
          (VoiceInputEnhanced.RecorderStop 0)
          (VoiceInputEnhanced.step Samples.enhanced_props Samples.plain_browser
             VoiceInputEnhanced.Unmount MoreSamples.enhanced_recording)))
  = 1.
Proof.
  destruct (X8_unmount_still_submits Samples.enhanced_props Samples.plain_browser
              MoreSamples.enhanced_recording 0 MoreSamples.first_recorder
              eq_refl eq_refl eq_refl) as [_ H].
  rewrite H. reflexivity.
Defined.

(** ** Start requests that fail *)

(** X9.  A start request that fails changes nothing but the message.  In
    either variant: without [navigator.mediaDevices] the click on record
    shows the "not supported" text and asks for no microphone; with it, a
    request that is turned down shows the "permission denied" text for
    [NotAllowedError] and the "recording failed" text otherwise.  State,
    references, recorders, streams and timers are as before the click. *)
Theorem X9_failed_start_only_sets_the_message
    (pr : VoiceInputReview.Props) (pe : VoiceInputEnhanced.Props) (nav : Browser.Navigator)
    (wr : VoiceInputReview.World) (we : VoiceInputEnhanced.World) :
  let tr := VoiceInputReview.content (VoiceInputReview.language pr) in
  let te := VoiceInputEnhanced.content (VoiceInputEnhanced.language pe) in
  if Browser.mediaDevices nav
  then
    VoiceInputReview.step pr nav
      (VoiceInputReview.UserMediaSettled Browser.NotAllowedError)
      (VoiceInputReview.step pr nav VoiceInputReview.ClickRecord wr)
    = VoiceInputReview.setError (JS.Str (VoiceInputReview.permissionDenied tr)) wr
    /\ VoiceInputReview.step pr nav
         (VoiceInputReview.UserMediaSettled Browser.OtherError)
         (VoiceInputReview.step pr nav VoiceInputReview.ClickRecord wr)
       = VoiceInputReview.setError (JS.Str (VoiceInputReview.recordingError tr)) wr
    /\ VoiceInputEnhanced.step pe nav
         (VoiceInputEnhanced.UserMediaSettled Browser.NotAllowedError)
         (VoiceInputEnhanced.step pe nav VoiceInputEnhanced.ClickRecord we)
       = VoiceInputEnhanced.setError (JS.Str (VoiceInputEnhanced.permissionDenied te)) we
    /\ VoiceInputEnhanced.step pe nav
         (VoiceInputEnhanced.UserMediaSettled Browser.OtherError)
         (VoiceInputEnhanced.step pe nav VoiceInputEnhanced.ClickRecord we)
       = VoiceInputEnhanced.setError (JS.Str (VoiceInputEnhanced.recordingError te)) we
  else
    VoiceInputReview.step pr nav VoiceInputReview.ClickRecord wr
    = VoiceInputReview.setError (JS.Str (VoiceInputReview.notSupported tr)) wr
    /\ VoiceInputEnhanced.step pe nav VoiceInputEnhanced.ClickRecord we
       = VoiceInputEnhanced.setError (JS.Str (VoiceInputEnhanced.notSupported te)) we.
Proof.
  intros tr te. subst tr te.
  destruct wr as [st er rt au ip mr ch tm ar bl [rs sn ls tn ts un us pn] fl tr mo].
  destruct we as [st' er' rt' mr' ch' tm' bl' [rs' sn' ls' tn' ts' un' us' pn'] fl' tr' mo'].
  unfold VoiceInputReview.step, VoiceInputEnhanced.step,
    VoiceInputReview.handle, VoiceInputReview.startRecording,
    VoiceInputEnhanced.startRecording.
  destruct (Browser.mediaDevices nav); cbn;
    rewrite ?option_nat_eqb_refl, ?Bool.andb_false_r;
    repeat split; reflexivity.
Qed.

(** ** How a submission ends *)

Section Settled.
Import Web Browser.





End Settled.



(** ** The route handlers as a whole *)

Section RoutesWhole.
Import Web.

Lemma voice_on_error (P : VoiceRoute.Platform) :
  VoiceRoute.on_error P
  = JS.Normal {| res_status := 500;
                 res_body := JS.Obj [("error", JS.Str "Failed to process voice recording")] |}.
Proof. reflexivity. Qed.


Lemma NextResponse_json_cases (f : Z -> JS.exn) (data : JS.value) (st : Z) :
  (init_status_ok st = true
   /\ NextResponse_json f data st = JS.Normal {| res_status := st; res_body := data |})
  \/ (init_status_ok st = false /\ NextResponse_json f data st = JS.Throw (f st)).
Proof.
  unfold NextResponse_json. destruct (init_status_ok st); [left | right]; split; reflexivity.
Qed.

End RoutesWhole.

(** X11.  The voice proxy always answers.  Whatever the request and
    whatever the backend does, [POST] returns a response (it never
    rejects) and sends at most one backend request.  The status is 400,
    500, 200, or the status of a backend response that is not OK. *)
Theorem X11_voice_proxy_always_answers
    (P : VoiceRoute.Platform) (request : VoiceRoute.NextRequest) :
  exists res : Web.NextResponse,
    fst (VoiceRoute.POST P request) = JS.Normal res
    /\ List.length (snd (VoiceRoute.POST P request)) <= 1
    /\ (Web.res_status res = 400%Z \/ Web.res_status res = 500%Z
        \/ Web.res_status res = 200%Z
        \/ exists (req : VoiceRoute.BackendRequest) (r : Web.Response),
             snd (VoiceRoute.POST P request) = [req]
             /\ VoiceRoute.backend P req = Web.Resolved r
             /\ Web.ok r = false
             /\ Web.res_status res = Web.status r).
Proof.
  unfold VoiceRoute.POST. rewrite !voice_on_error.
  destruct (VoiceRoute.formData request) as [fd | e];
    [| eexists; split; [reflexivity |]; split; [cbn; lia | cbn; auto]].
  destruct (VoiceRoute.missing (Web.FormData_get "audio" fd)).
  - cbn. eexists. split; [reflexivity |]. split; [lia | cbn; auto].
  - set (q := VoiceRoute.Build_BackendRequest _ _ _).
    destruct (VoiceRoute.backend P q) as [r | e] eqn:Hb;
      [| eexists; split; [reflexivity |]; split; [cbn; lia | cbn; auto]].
    destruct (Web.json r) as [data | e];
      [| eexists; split; [reflexivity |]; split; [cbn; lia | cbn; auto]].
    destruct (Web.ok r) eqn:Hok.
    + cbn. eexists. split; [reflexivity |]. split; [lia | cbn; auto].
    + destruct (JS.get data "detail") as [detail | e];
        [| eexists; split; [reflexivity |]; split; [cbn; lia | cbn; auto]].
      destruct (NextResponse_json_cases (VoiceRoute.init_error P)
                  (JS.Obj [("error", JS.or detail (JS.Str "Transcription failed"))])
                  (Web.status r)) as [[_ ->] | [_ ->]];
        eexists; (split; [reflexivity |]); (split; [cbn; lia |]); cbn; [| auto].
      right. right. right. exists q, r. repeat split; assumption.
Qed.



(** X13.  What the voice proxy forwards.  When the form has a usable
    [audio] entry, exactly one request goes to
    [<backend>/api/voice/transcribe], and its form has two entries and no
    more: the first [audio] value of the incoming form, and [language],
    which is ['auto'] when the incoming form has no language or an empty
    one.  Every other field of the incoming form is dropped. *)
Theorem X13_voice_forwarded_form
    (P : VoiceRoute.Platform) (fd : Web.FormData) (audio : Web.FormDataEntryValue) :
  Web.FormData_get "audio" fd = Some audio ->
  VoiceRoute.missing (Some audio) = false ->
  exists language : Web.FormDataEntryValue,
    snd (VoiceRoute.POST P {| VoiceRoute.formData := JS.Normal fd |})
    = [{| VoiceRoute.url :=
            (Web.BACKEND_URL (VoiceRoute.NEXT_PUBLIC_API_BASE_URL P)
               ++ "/api/voice/transcribe")%string;
          VoiceRoute.method := "POST";
          VoiceRoute.backend_body := [("audio", audio); ("language", language)] |}]
    /\ (Web.FormData_get "language" fd = None
        \/ Web.FormData_get "language" fd = Some (Web.FString "") ->
        language = Web.FString "auto")
    /\ (forall v, Web.FormData_get "language" fd = Some v ->
                  VoiceRoute.missing (Some v) = false -> language = v).
Proof.
  intros Ha Hm.
  exists (VoiceRoute.language_or_auto (Web.FormData_get "language" fd)).
  split; [| split].
  - unfold VoiceRoute.POST. cbn [VoiceRoute.formData]. rewrite Ha, Hm.
    set (q := VoiceRoute.Build_BackendRequest _ _ _).
    destruct (VoiceRoute.backend P q) as [r' | e];
      [destruct (Web.json r');
       [destruct (Web.ok r');
        [destruct (Web.NextResponse_json _ _ _)
        | destruct (JS.get _ _); [destruct (Web.NextResponse_json _ _ _) |]] |] |];
      reflexivity.
  - intros [-> | ->]; reflexivity.
  - intros v -> Hv. destruct v as [s | c n]; cbn in *; [| reflexivity].
    destruct (JS.nonempty s); [reflexivity | discriminate].
Qed.

Lemma X13_voice_forwarded_form_witness :
  exists language : Web.FormDataEntryValue,
    snd (VoiceRoute.POST (Samples.voice_platform (Web.Resolved Samples.hello))
           {| VoiceRoute.formData :=
                JS.Normal [("note", Web.FString "x");
                           ("audio", Web.FFile Samples.chunk "a.webm")] |})
    = [{| VoiceRoute.url := "http://localhost:8000/api/voice/transcribe";
          VoiceRoute.method := "POST";
          VoiceRoute.backend_body :=
            [("audio", Web.FFile Samples.chunk "a.webm"); ("language", language)] |}]
    /\ language = Web.FString "auto".
Proof.
  destruct (X13_voice_forwarded_form
              (Samples.voice_platform (Web.Resolved Samples.hello))
              [("note", Web.FString "x"); ("audio", Web.FFile Samples.chunk "a.webm")]
              (Web.FFile Samples.chunk "a.webm") eq_refl eq_refl)
    as [language [Hsent [Hauto _]]].
  exists language. split; [exact Hsent | apply Hauto; left; reflexivity].
Defined.


(** ** The authentication context *)

Section Auth.

Lemma auth_step_consistent (ev : AuthContext.Event) (st : AuthContext.AuthState) :
  AuthContext.user st = AuthContext.user_of (AuthContext.session st) ->
  AuthContext.user (AuthContext.step ev st)
  = AuthContext.user_of (AuthContext.session (AuthContext.step ev st)).
Proof.
  intro H. destruct ev as [[s | e] | s | [|]]; cbn; try reflexivity; exact H.
Qed.

Lemma auth_run_consistent (evs : list AuthContext.Event) (st : AuthContext.AuthState) :
  AuthContext.user st = AuthContext.user_of (AuthContext.session st) ->
  let st' := fold_left (fun st ev => AuthContext.step ev st) evs st in
  AuthContext.user st' = AuthContext.user_of (AuthContext.session st').
Proof.
  revert st. induction evs as [| ev evs IH]; intros st H; cbn [fold_left];
    [exact H | apply IH, auth_step_consistent, H].
Qed.

Lemma auth_loading_stays_off (evs : list AuthContext.Event) (st : AuthContext.AuthState) :
  AuthContext.isLoading st = false ->
  AuthContext.isLoading (fold_left (fun st ev => AuthContext.step ev st) evs st) = false.
Proof.
  revert st. induction evs as [| ev evs IH]; intros st H; cbn [fold_left];
    [exact H | apply IH].
  destruct ev as [[s | e] | s | [|]]; cbn; try reflexivity; exact H.
Qed.

End Auth.

(** X15.  The provider's user always is the session's user.  After any
    sequence of session answers, auth state changes and sign-outs,
    [user] is the user of [session] (null when there is none); so
    [isAuthenticated] holds exactly when [getAccessToken] returns a
    token, and that token is the session's. *)
Theorem X15_authenticated_iff_token (evs : list AuthContext.Event) :
  let st := Notions.auth_run evs in
  AuthContext.user st = AuthContext.user_of (AuthContext.session st)
  /\ (AuthContext.isAuthenticated st = true <-> AuthContext.getAccessToken st <> None)
  /\ (forall s, AuthContext.session st = Some s ->
                AuthContext.isAuthenticated st = true
                /\ AuthContext.user st = Some (Supabase.user s)
                /\ AuthContext.getAccessToken st = Some (Supabase.access_token s)).
Proof.
  intro st.
  assert (H : AuthContext.user st = AuthContext.user_of (AuthContext.session st))
    by (apply auth_run_consistent; reflexivity).
  split; [exact H |].
  unfold AuthContext.isAuthenticated, AuthContext.getAccessToken.
  rewrite H. unfold AuthContext.user_of.
  destruct (AuthContext.session st) as [s |]; cbn; split.
  - split; [discriminate | reflexivity].
  - intros s' E. injection E as <-. repeat split.
  - split; [discriminate | intro C; exfalso; apply C; reflexivity].
  - intros s' E. discriminate E.
Qed.

Lemma X15_authenticated_iff_token_witness :
  AuthContext.isAuthenticated
    (Notions.auth_run [AuthContext.GetSessionSettled (JS.Throw "AuthError");
                       AuthContext.AuthStateChange (Some MoreSamples.alice)]) = true
  /\ AuthContext.getAccessToken
       (Notions.auth_run [AuthContext.GetSessionSettled (JS.Throw "AuthError");
                          AuthContext.AuthStateChange (Some MoreSamples.alice)])
     = Some "token-1".
Proof.
  destruct (X15_authenticated_iff_token
              [AuthContext.GetSessionSettled (JS.Throw "AuthError");
               AuthContext.AuthStateChange (Some MoreSamples.alice)])
    as [_ [_ H]].
  destruct (H MoreSamples.alice eq_refl) as [Ha [_ Ht]].
  split; assumption.
Defined.

(** X16.  Loading ends with the first answer and does not come back: as
    soon as [getSession] has settled (also when it threw) or an auth
    state change has arrived, [isLoading] is false, and nothing that
    follows sets it again; a sign-out alone does not end it. *)
Theorem X16_loading_ends_once
    (before after : list AuthContext.Event) (ev : AuthContext.Event) :
  (forall b, ev <> AuthContext.SignOutSettled b) ->
  AuthContext.isLoading (Notions.auth_run (before ++ ev :: after)) = false
  /\ (forall outs : list bool,
        AuthContext.isLoading
          (Notions.auth_run (List.map AuthContext.SignOutSettled outs)) = true).
Proof.
  intro Hev. split.
  2: { intro outs. unfold Notions.auth_run.
       assert (G : forall st, AuthContext.isLoading st = true ->
                 AuthContext.isLoading
                   (fold_left (fun st ev => AuthContext.step ev st)
                      (List.map AuthContext.SignOutSettled outs) st) = true).
       { induction outs as [| b outs IH]; intros st H; cbn [List.map fold_left];
           [exact H | apply IH; destruct b; exact H]. }
       apply G. reflexivity. }
  unfold Notions.auth_run. rewrite fold_left_app. cbn [fold_left].
  apply auth_loading_stays_off.
  destruct ev as [[s | e] | s | b]; cbn; try reflexivity.
  exfalso. exact (Hev b eq_refl).
Qed.

Lemma X16_loading_ends_once_witness :
  AuthContext.isLoading
    (Notions.auth_run
       ([AuthContext.SignOutSettled true]
          ++ AuthContext.GetSessionSettled (JS.Throw "AuthError")
          :: [AuthContext.SignOutSettled true]))
  = false.
Proof.
  destruct (X16_loading_ends_once [AuthContext.SignOutSettled true]
              [AuthContext.SignOutSettled true]
              (AuthContext.GetSessionSettled (JS.Throw "AuthError"))) as [H _].
  - intros b E. discriminate E.
  - exact H.
Defined.

(** ** The storage key of the session *)

Section Split.

Lemma append_assoc_string (a b c : string) :
  ((a ++ b) ++ c = a ++ (b ++ c))%string.
Proof. induction a as [| x a IH]; simpl; [reflexivity | now rewrite IH]. Qed.

Lemma append_nil_r (a : string) : (a ++ "" = a)%string.
Proof. induction a as [| x a IH]; simpl; [reflexivity | now rewrite IH]. Qed.

Lemma prefix_append (a t : string) : String.prefix a (a ++ t) = true.
Proof.
  induction a as [| x a IH]; simpl; [destruct t; reflexivity |].
  destruct (ascii_dec x x); [exact IH | congruence].
Qed.

Lemma lacks_cons (c x : ascii) (a : string) :
  Notions.lacks c (String x a) -> x <> c /\ Notions.lacks c a.
Proof.
  unfold Notions.lacks. simpl. intro H. split.
  - intro E. apply H. left. exact E.
  - intro E. apply H. right. exact E.
Qed.

Lemma lacks_append (c : ascii) (a b : string) :
  Notions.lacks c a -> Notions.lacks c b -> Notions.lacks c (a ++ b).
Proof.
  induction a as [| x a IH]; simpl; intros Ha Hb; [exact Hb |].
  apply lacks_cons in Ha. destruct Ha as [Hx Ha].
  unfold Notions.lacks. simpl. intros [E | E]; [exact (Hx E) |].
  exact (IH Ha Hb E).
Qed.

(** A stretch without the separator's first character is read into the
    current piece. *)
Lemma split_go_through (c : ascii) (sep' a t cur : string) :
  Notions.lacks c a ->
  JS.split_go (String c sep') (a ++ t) 0 cur
  = JS.split_go (String c sep') t 0 (cur ++ a).
Proof.
  revert cur. induction a as [| x a IH]; intros cur Ha; simpl.
  - rewrite append_nil_r. reflexivity.
  - apply lacks_cons in Ha. destruct Ha as [Hx Ha].
    destruct (ascii_dec c x) as [E | _]; [exfalso; apply Hx; symmetry; exact E |].
    rewrite (IH _ Ha), append_assoc_string. reflexivity.
Qed.

Lemma split_go_skip (sep x t cur : string) :
  JS.split_go sep (x ++ t) (String.length x) cur = JS.split_go sep t 0 cur.
Proof. induction x as [| c x IH]; simpl; [destruct t; reflexivity | exact IH]. Qed.

(** At a separator the current piece ends. *)
Lemma split_go_separator (c : ascii) (sep' t cur : string) :
  JS.split_go (String c sep') (String c sep' ++ t) 0 cur
  = cur :: JS.split_go (String c sep') t 0 "".
Proof.
  cbn [append JS.split_go].
  change (String c (sep' ++ t)) with (String c sep' ++ t)%string.
  rewrite prefix_append.
  replace (String.length (String c sep') - 1) with (String.length sep')
    by (cbn [String.length]; lia).
  rewrite split_go_skip. reflexivity.
Qed.

(** The first piece starts with what has been read so far. *)
Lemma split_go_first (sep t : string) (skip : nat) (cur : string) :
  exists more rest, JS.split_go sep t skip cur = (cur ++ more)%string :: rest.
Proof.
  revert skip cur. induction t as [| x t IH]; intros skip cur.
  - exists ""%string, []. simpl. rewrite append_nil_r. reflexivity.
  - cbn [JS.split_go]. destruct skip as [| k].
    + destruct (String.prefix sep (String x t)).
      * exists ""%string. eexists. rewrite append_nil_r. reflexivity.
      * destruct (IH 0 (cur ++ String x "")%string) as [more [rest E]].
        exists (String x more), rest. rewrite E, append_assoc_string. reflexivity.
    + apply IH.
Qed.

(** The key for a URL of the shape [scheme//ref.rest]. *)
Lemma storageKey_of_url (scheme ref rest : string) :
  Notions.lacks "/" scheme ->
  Notions.lacks "/" ref ->
  Notions.lacks "." ref ->
  AuthContext.storageKey (Some (scheme ++ "//" ++ ref ++ "." ++ rest)%string)
  = ("sb-" ++ ref ++ "-auth-token")%string.
Proof.
  intros Hscheme Hslash Hdot.
  unfold AuthContext.storageKey, AuthContext.project_ref, JS.split.
  rewrite (split_go_through "/" "/" scheme _ "" Hscheme).
  rewrite (split_go_separator "/" "/").
  cbn [nth_error append].
  assert (Hhost : Notions.lacks "/" (ref ++ ".")).
  { apply lacks_append; [exact Hslash |].
    unfold Notions.lacks. simpl. intros [E | []]. discriminate E. }
  replace (ref ++ String "." rest)%string with ((ref ++ ".") ++ rest)%string
    by (rewrite append_assoc_string; reflexivity).
  rewrite (split_go_through "/" "/" (ref ++ ".") rest "" Hhost).
  destruct (split_go_first "//" rest 0 ("" ++ (ref ++ "."))%string) as [more [tl E]].
  rewrite E. cbn [append].
  rewrite (append_assoc_string ref "." more).
  rewrite (split_go_through "." "" ref _ "" Hdot).
  rewrite (split_go_separator "." "").
  reflexivity.
Qed.

End Split.

Ltac lacks_by_inspection :=
  unfold Notions.lacks; cbn [list_ascii_of_string In];
  let H := fresh "H" in
  intro H;
  repeat match type of H with
         | _ \/ _ => destruct H as [H | H]
         end;
  first [discriminate H | contradiction].

(** X17.  The storage key is built from the project reference of the
    Supabase URL.  For a URL [scheme//ref.rest] (no slash in [scheme] or
    [ref], no dot in [ref]) the key is [sb-ref-auth-token], whatever
    follows the first dot.  Without the environment variable, or when its
    value has no slash at all, the key is [sb-undefined-auth-token]. *)
Theorem X17_storage_key (scheme ref rest plain : string) :
  Notions.lacks "/" scheme ->
  Notions.lacks "/" ref ->
  Notions.lacks "." ref ->
  Notions.lacks "/" plain ->
  AuthContext.storageKey (Some (scheme ++ "//" ++ ref ++ "." ++ rest)%string)
  = ("sb-" ++ ref ++ "-auth-token")%string
  /\ AuthContext.storageKey (Some plain) = "sb-undefined-auth-token"
  /\ AuthContext.storageKey None = "sb-undefined-auth-token".
Proof.
  intros Hscheme Hslash Hdot Hplain.
  split; [apply storageKey_of_url; assumption | split; [| reflexivity]].
  unfold AuthContext.storageKey, AuthContext.project_ref, JS.split.
  rewrite <- (append_nil_r plain) at 1.
  rewrite (split_go_through "/" "/" plain "" "" Hplain).
  reflexivity.
Qed.

Lemma X17_storage_key_witness :
  AuthContext.storageKey (Some "https://abc.supabase.co") = "sb-abc-auth-token"
  /\ AuthContext.storageKey (Some "localhost:54321") = "sb-undefined-auth-token".
Proof.
  destruct (X17_storage_key "https:" "abc" "supabase.co" "localhost:54321")
    as [H1 [H2 _]]; try lacks_by_inspection.
  split; assumption.
Defined.



(** ** Playback in the review variant *)

Section Playback.
Import Web Browser.


End Playback.


